(** * Visual-chat simulation player: a model of the playback engine

    The player is the React component [VisualChatSimulationPage].  Its
    [useState] cells are the fields of the record [Comp]; everything that
    lives outside the render state (pending [setTimeout] callbacks, the
    [setInterval] handle kept in [timerRef], requests in flight) is in
    [World].  Every handler is a state transformer that reads the render
    it was created in (its closure) and updates the live state, which is
    how stale closures of delayed callbacks are accounted for.

    Conventions.
    - The updates made by one callback (an event handler, the body of a
      timeout, the continuation of a request) are applied together and
      followed by one render, whose effects run when their dependencies
      have changed.
    - Scores are binary64 numbers; counters, indices and delays are
      integers; a string is a sequence of code units below 256.
    - State that only drives the layout ([imageScale], the map of image
      URLs) and the [id] and [timestamp] of a chat message are left out.
    - The two asynchronous handlers are split at their [await]: the
      request is one event, its outcome another.
    - The component uses a state cell [isStarting] that it declares
      nowhere; [declaresIsStarting] (see [Props]) says whether the
      declaration is supplied.  As the source stands it is not, and
      the start handler ends at its first use. *)

From Stdlib Require Import ZArith List String Ascii Bool Lia.
From Stdlib Require Import Floats.PrimFloat.
From Stdlib Require Import DecimalString DecimalPos DecimalZ.
Import ListNotations.

Set Warnings "-inexact-float".
Local Open Scope string_scope.
Local Open Scope list_scope.
Local Open Scope Z_scope.

(** ** JavaScript values *)

Module Js.

(** [arr[i]]: [undefined] outside of the array. *)
Definition index {A : Type} (arr : list A) (i : Z) : option A :=
  if i <? 0 then None else nth_error arr (Z.to_nat i).

(** [arr.length] *)
Definition length {A : Type} (arr : list A) : Z := Z.of_nat (List.length arr).

(** Truthiness of a string: only the empty string is falsy. *)
Definition truthy (s : string) : bool :=
  match s with EmptyString => false | String _ _ => true end.

(** Truthiness of a string that may be [null] or [undefined]. *)
Definition truthy_opt (s : option string) : bool :=
  match s with Some s => truthy s | None => false end.

(** White space as [String.prototype.trim] sees it, for code units
    below 256: TAB, LF, VT, FF, CR, SP and NBSP. *)
Definition is_whitespace (a : ascii) : bool :=
  let n := nat_of_ascii a in
  ((9 <=? n) && (n <=? 13) || (n =? 32) || (n =? 160))%nat.

Fixpoint trimStart (s : string) : string :=
  match s with
  | EmptyString => EmptyString
  | String a r => if is_whitespace a then trimStart r else s
  end.

Fixpoint trimEnd (s : string) : string :=
  match s with
  | EmptyString => EmptyString
  | String a r =>
      match trimEnd r with
      | EmptyString => if is_whitespace a then EmptyString else String a EmptyString
      | r' => String a r'
      end
  end.

Definition trim (s : string) : string := trimEnd (trimStart s).

(** Every code unit of the string is white space. *)
Fixpoint blank (s : string) : bool :=
  match s with
  | EmptyString => true
  | String a r => is_whitespace a && blank r
  end.

End Js.

(** ** The data of a simulation *)

(** [settings?: any]; the two fields the engine reads.  The timeout is a
    whole number of seconds. *)
Record Settings : Type := mkSettings {
  timeoutDuration : option Z;
  advanceOnSelect : option bool
}.

Record Coordinates : Type := mkCoordinates {
  coord_x : Z; coord_y : Z; coord_width : Z; coord_height : Z
}.

(** An entry of [slidesData[i].sequence]. *)
Record SequenceItem : Type := mkItem {
  item_type : string;
  item_id : string;
  hotspotType : option string;
  coordinates : option Coordinates;
  settings : option Settings;
  role : option string;
  text : option string;
  options : option (list string)
}.

Record Slide : Type := mkSlide {
  imageId : string;
  sequence : option (list SequenceItem)
}.

Record SimulationData : Type := mkSimulationData {
  sim_id : string;
  slidesData : list Slide
}.

Inductive Role : Type := customer | trainee.

Record Message : Type := mkMessage {
  msg_role : Role;
  msg_text : string
}.

(** [EndChatResponse['scores']] *)
Record Scores : Type := mkScores {
  SimAccuracy : float;
  KeywordScore : float;
  ClickScore : float;
  Confidence : float;
  Energy : float;
  Concentration : float
}.

(** Minimum passing score threshold *)
Definition MIN_PASSING_SCORE : float := 85%float.

(** ** Render state: the [useState] cells *)

Record Comp : Type := mkComp {
  isStarted : bool;
  isEndingChat : bool;
  simulationProgressId : option string;
  showCompletionScreen : bool;
  scores : option Scores;
  duration : Z;
  elapsedTime : Z;
  isPaused : bool;
  callStatus : string;
  simulationData : option SimulationData;
  currentSlideIndex : Z;
  currentSequenceIndex : Z;
  imageLoaded : bool;
  isProcessing : bool;
  isLoadingVisuals : bool;
  isStarting : bool;
  highlightHotspot : bool;
  dropdownOpen : bool;
  dropdownValue : string;
  checkboxChecked : bool;
  textInputValue : string;
  showCoachingTip : bool;
  userInput : string;
  waitingForUserInput : bool;
  expectedTraineeResponse : string;
  currentMessage : option Message
}.

Definition setIsStarted (v : bool) (c : Comp) : Comp :=
  mkComp v (isEndingChat c) (simulationProgressId c) (showCompletionScreen c)
    (scores c) (duration c) (elapsedTime c) (isPaused c) (callStatus c)
    (simulationData c) (currentSlideIndex c) (currentSequenceIndex c)
    (imageLoaded c) (isProcessing c) (isLoadingVisuals c) (isStarting c)
    (highlightHotspot c) (dropdownOpen c) (dropdownValue c) (checkboxChecked
    c) (textInputValue c) (showCoachingTip c) (userInput c)
    (waitingForUserInput c) (expectedTraineeResponse c) (currentMessage c).

Definition setIsEndingChat (v : bool) (c : Comp) : Comp :=
  mkComp (isStarted c) v (simulationProgressId c) (showCompletionScreen c)
    (scores c) (duration c) (elapsedTime c) (isPaused c) (callStatus c)
    (simulationData c) (currentSlideIndex c) (currentSequenceIndex c)
    (imageLoaded c) (isProcessing c) (isLoadingVisuals c) (isStarting c)
    (highlightHotspot c) (dropdownOpen c) (dropdownValue c) (checkboxChecked
    c) (textInputValue c) (showCoachingTip c) (userInput c)
    (waitingForUserInput c) (expectedTraineeResponse c) (currentMessage c).

Definition setSimulationProgressId (v : option string) (c : Comp) : Comp :=
  mkComp (isStarted c) (isEndingChat c) v (showCompletionScreen c) (scores c)
    (duration c) (elapsedTime c) (isPaused c) (callStatus c) (simulationData
    c) (currentSlideIndex c) (currentSequenceIndex c) (imageLoaded c)
    (isProcessing c) (isLoadingVisuals c) (isStarting c) (highlightHotspot c)
    (dropdownOpen c) (dropdownValue c) (checkboxChecked c) (textInputValue c)
    (showCoachingTip c) (userInput c) (waitingForUserInput c)
    (expectedTraineeResponse c) (currentMessage c).

Definition setShowCompletionScreen (v : bool) (c : Comp) : Comp :=
  mkComp (isStarted c) (isEndingChat c) (simulationProgressId c) v (scores c)
    (duration c) (elapsedTime c) (isPaused c) (callStatus c) (simulationData
    c) (currentSlideIndex c) (currentSequenceIndex c) (imageLoaded c)
    (isProcessing c) (isLoadingVisuals c) (isStarting c) (highlightHotspot c)
    (dropdownOpen c) (dropdownValue c) (checkboxChecked c) (textInputValue c)
    (showCoachingTip c) (userInput c) (waitingForUserInput c)
    (expectedTraineeResponse c) (currentMessage c).

Definition setScores (v : option Scores) (c : Comp) : Comp :=
  mkComp (isStarted c) (isEndingChat c) (simulationProgressId c)
    (showCompletionScreen c) v (duration c) (elapsedTime c) (isPaused c)
    (callStatus c) (simulationData c) (currentSlideIndex c)
    (currentSequenceIndex c) (imageLoaded c) (isProcessing c)
    (isLoadingVisuals c) (isStarting c) (highlightHotspot c) (dropdownOpen c)
    (dropdownValue c) (checkboxChecked c) (textInputValue c) (showCoachingTip
    c) (userInput c) (waitingForUserInput c) (expectedTraineeResponse c)
    (currentMessage c).

Definition setDuration (v : Z) (c : Comp) : Comp :=
  mkComp (isStarted c) (isEndingChat c) (simulationProgressId c)
    (showCompletionScreen c) (scores c) v (elapsedTime c) (isPaused c)
    (callStatus c) (simulationData c) (currentSlideIndex c)
    (currentSequenceIndex c) (imageLoaded c) (isProcessing c)
    (isLoadingVisuals c) (isStarting c) (highlightHotspot c) (dropdownOpen c)
    (dropdownValue c) (checkboxChecked c) (textInputValue c) (showCoachingTip
    c) (userInput c) (waitingForUserInput c) (expectedTraineeResponse c)
    (currentMessage c).

Definition setElapsedTime (v : Z) (c : Comp) : Comp :=
  mkComp (isStarted c) (isEndingChat c) (simulationProgressId c)
    (showCompletionScreen c) (scores c) (duration c) v (isPaused c)
    (callStatus c) (simulationData c) (currentSlideIndex c)
    (currentSequenceIndex c) (imageLoaded c) (isProcessing c)
    (isLoadingVisuals c) (isStarting c) (highlightHotspot c) (dropdownOpen c)
    (dropdownValue c) (checkboxChecked c) (textInputValue c) (showCoachingTip
    c) (userInput c) (waitingForUserInput c) (expectedTraineeResponse c)
    (currentMessage c).

Definition setIsPaused (v : bool) (c : Comp) : Comp :=
  mkComp (isStarted c) (isEndingChat c) (simulationProgressId c)
    (showCompletionScreen c) (scores c) (duration c) (elapsedTime c) v
    (callStatus c) (simulationData c) (currentSlideIndex c)
    (currentSequenceIndex c) (imageLoaded c) (isProcessing c)
    (isLoadingVisuals c) (isStarting c) (highlightHotspot c) (dropdownOpen c)
    (dropdownValue c) (checkboxChecked c) (textInputValue c) (showCoachingTip
    c) (userInput c) (waitingForUserInput c) (expectedTraineeResponse c)
    (currentMessage c).

Definition setCallStatus (v : string) (c : Comp) : Comp :=
  mkComp (isStarted c) (isEndingChat c) (simulationProgressId c)
    (showCompletionScreen c) (scores c) (duration c) (elapsedTime c) (isPaused
    c) v (simulationData c) (currentSlideIndex c) (currentSequenceIndex c)
    (imageLoaded c) (isProcessing c) (isLoadingVisuals c) (isStarting c)
    (highlightHotspot c) (dropdownOpen c) (dropdownValue c) (checkboxChecked
    c) (textInputValue c) (showCoachingTip c) (userInput c)
    (waitingForUserInput c) (expectedTraineeResponse c) (currentMessage c).

Definition setSimulationData (v : option SimulationData) (c : Comp) : Comp :=
  mkComp (isStarted c) (isEndingChat c) (simulationProgressId c)
    (showCompletionScreen c) (scores c) (duration c) (elapsedTime c) (isPaused
    c) (callStatus c) v (currentSlideIndex c) (currentSequenceIndex c)
    (imageLoaded c) (isProcessing c) (isLoadingVisuals c) (isStarting c)
    (highlightHotspot c) (dropdownOpen c) (dropdownValue c) (checkboxChecked
    c) (textInputValue c) (showCoachingTip c) (userInput c)
    (waitingForUserInput c) (expectedTraineeResponse c) (currentMessage c).

Definition setCurrentSlideIndex (v : Z) (c : Comp) : Comp :=
  mkComp (isStarted c) (isEndingChat c) (simulationProgressId c)
    (showCompletionScreen c) (scores c) (duration c) (elapsedTime c) (isPaused
    c) (callStatus c) (simulationData c) v (currentSequenceIndex c)
    (imageLoaded c) (isProcessing c) (isLoadingVisuals c) (isStarting c)
    (highlightHotspot c) (dropdownOpen c) (dropdownValue c) (checkboxChecked
    c) (textInputValue c) (showCoachingTip c) (userInput c)
    (waitingForUserInput c) (expectedTraineeResponse c) (currentMessage c).

Definition setCurrentSequenceIndex (v : Z) (c : Comp) : Comp :=
  mkComp (isStarted c) (isEndingChat c) (simulationProgressId c)
    (showCompletionScreen c) (scores c) (duration c) (elapsedTime c) (isPaused
    c) (callStatus c) (simulationData c) (currentSlideIndex c) v (imageLoaded
    c) (isProcessing c) (isLoadingVisuals c) (isStarting c) (highlightHotspot
    c) (dropdownOpen c) (dropdownValue c) (checkboxChecked c) (textInputValue
    c) (showCoachingTip c) (userInput c) (waitingForUserInput c)
    (expectedTraineeResponse c) (currentMessage c).

Definition setImageLoaded (v : bool) (c : Comp) : Comp :=
  mkComp (isStarted c) (isEndingChat c) (simulationProgressId c)
    (showCompletionScreen c) (scores c) (duration c) (elapsedTime c) (isPaused
    c) (callStatus c) (simulationData c) (currentSlideIndex c)
    (currentSequenceIndex c) v (isProcessing c) (isLoadingVisuals c)
    (isStarting c) (highlightHotspot c) (dropdownOpen c) (dropdownValue c)
    (checkboxChecked c) (textInputValue c) (showCoachingTip c) (userInput c)
    (waitingForUserInput c) (expectedTraineeResponse c) (currentMessage c).

Definition setIsProcessing (v : bool) (c : Comp) : Comp :=
  mkComp (isStarted c) (isEndingChat c) (simulationProgressId c)
    (showCompletionScreen c) (scores c) (duration c) (elapsedTime c) (isPaused
    c) (callStatus c) (simulationData c) (currentSlideIndex c)
    (currentSequenceIndex c) (imageLoaded c) v (isLoadingVisuals c)
    (isStarting c) (highlightHotspot c) (dropdownOpen c) (dropdownValue c)
    (checkboxChecked c) (textInputValue c) (showCoachingTip c) (userInput c)
    (waitingForUserInput c) (expectedTraineeResponse c) (currentMessage c).

Definition setIsLoadingVisuals (v : bool) (c : Comp) : Comp :=
  mkComp (isStarted c) (isEndingChat c) (simulationProgressId c)
    (showCompletionScreen c) (scores c) (duration c) (elapsedTime c) (isPaused
    c) (callStatus c) (simulationData c) (currentSlideIndex c)
    (currentSequenceIndex c) (imageLoaded c) (isProcessing c) v (isStarting c)
    (highlightHotspot c) (dropdownOpen c) (dropdownValue c) (checkboxChecked
    c) (textInputValue c) (showCoachingTip c) (userInput c)
    (waitingForUserInput c) (expectedTraineeResponse c) (currentMessage c).

(** The setter of [isStarting], a cell the source uses without declaring
    it (see [Props]). *)
Definition setIsStarting (v : bool) (c : Comp) : Comp :=
  mkComp (isStarted c) (isEndingChat c) (simulationProgressId c)
    (showCompletionScreen c) (scores c) (duration c) (elapsedTime c) (isPaused
    c) (callStatus c) (simulationData c) (currentSlideIndex c)
    (currentSequenceIndex c) (imageLoaded c) (isProcessing c)
    (isLoadingVisuals c) v (highlightHotspot c) (dropdownOpen c)
    (dropdownValue c) (checkboxChecked c) (textInputValue c) (showCoachingTip
    c) (userInput c) (waitingForUserInput c) (expectedTraineeResponse c)
    (currentMessage c).

Definition setHighlightHotspot (v : bool) (c : Comp) : Comp :=
  mkComp (isStarted c) (isEndingChat c) (simulationProgressId c)
    (showCompletionScreen c) (scores c) (duration c) (elapsedTime c) (isPaused
    c) (callStatus c) (simulationData c) (currentSlideIndex c)
    (currentSequenceIndex c) (imageLoaded c) (isProcessing c)
    (isLoadingVisuals c) (isStarting c) v (dropdownOpen c) (dropdownValue c)
    (checkboxChecked c) (textInputValue c) (showCoachingTip c) (userInput c)
    (waitingForUserInput c) (expectedTraineeResponse c) (currentMessage c).

Definition setDropdownOpen (v : bool) (c : Comp) : Comp :=
  mkComp (isStarted c) (isEndingChat c) (simulationProgressId c)
    (showCompletionScreen c) (scores c) (duration c) (elapsedTime c) (isPaused
    c) (callStatus c) (simulationData c) (currentSlideIndex c)
    (currentSequenceIndex c) (imageLoaded c) (isProcessing c)
    (isLoadingVisuals c) (isStarting c) (highlightHotspot c) v (dropdownValue
    c) (checkboxChecked c) (textInputValue c) (showCoachingTip c) (userInput
    c) (waitingForUserInput c) (expectedTraineeResponse c) (currentMessage c).

Definition setDropdownValue (v : string) (c : Comp) : Comp :=
  mkComp (isStarted c) (isEndingChat c) (simulationProgressId c)
    (showCompletionScreen c) (scores c) (duration c) (elapsedTime c) (isPaused
    c) (callStatus c) (simulationData c) (currentSlideIndex c)
    (currentSequenceIndex c) (imageLoaded c) (isProcessing c)
    (isLoadingVisuals c) (isStarting c) (highlightHotspot c) (dropdownOpen c)
    v (checkboxChecked c) (textInputValue c) (showCoachingTip c) (userInput c)
    (waitingForUserInput c) (expectedTraineeResponse c) (currentMessage c).

Definition setCheckboxChecked (v : bool) (c : Comp) : Comp :=
  mkComp (isStarted c) (isEndingChat c) (simulationProgressId c)
    (showCompletionScreen c) (scores c) (duration c) (elapsedTime c) (isPaused
    c) (callStatus c) (simulationData c) (currentSlideIndex c)
    (currentSequenceIndex c) (imageLoaded c) (isProcessing c)
    (isLoadingVisuals c) (isStarting c) (highlightHotspot c) (dropdownOpen c)
    (dropdownValue c) v (textInputValue c) (showCoachingTip c) (userInput c)
    (waitingForUserInput c) (expectedTraineeResponse c) (currentMessage c).

Definition setTextInputValue (v : string) (c : Comp) : Comp :=
  mkComp (isStarted c) (isEndingChat c) (simulationProgressId c)
    (showCompletionScreen c) (scores c) (duration c) (elapsedTime c) (isPaused
    c) (callStatus c) (simulationData c) (currentSlideIndex c)
    (currentSequenceIndex c) (imageLoaded c) (isProcessing c)
    (isLoadingVisuals c) (isStarting c) (highlightHotspot c) (dropdownOpen c)
    (dropdownValue c) (checkboxChecked c) v (showCoachingTip c) (userInput c)
    (waitingForUserInput c) (expectedTraineeResponse c) (currentMessage c).

Definition setShowCoachingTip (v : bool) (c : Comp) : Comp :=
  mkComp (isStarted c) (isEndingChat c) (simulationProgressId c)
    (showCompletionScreen c) (scores c) (duration c) (elapsedTime c) (isPaused
    c) (callStatus c) (simulationData c) (currentSlideIndex c)
    (currentSequenceIndex c) (imageLoaded c) (isProcessing c)
    (isLoadingVisuals c) (isStarting c) (highlightHotspot c) (dropdownOpen c)
    (dropdownValue c) (checkboxChecked c) (textInputValue c) v (userInput c)
    (waitingForUserInput c) (expectedTraineeResponse c) (currentMessage c).

Definition setUserInput (v : string) (c : Comp) : Comp :=
  mkComp (isStarted c) (isEndingChat c) (simulationProgressId c)
    (showCompletionScreen c) (scores c) (duration c) (elapsedTime c) (isPaused
    c) (callStatus c) (simulationData c) (currentSlideIndex c)
    (currentSequenceIndex c) (imageLoaded c) (isProcessing c)
    (isLoadingVisuals c) (isStarting c) (highlightHotspot c) (dropdownOpen c)
    (dropdownValue c) (checkboxChecked c) (textInputValue c) (showCoachingTip
    c) v (waitingForUserInput c) (expectedTraineeResponse c) (currentMessage
    c).

Definition setWaitingForUserInput (v : bool) (c : Comp) : Comp :=
  mkComp (isStarted c) (isEndingChat c) (simulationProgressId c)
    (showCompletionScreen c) (scores c) (duration c) (elapsedTime c) (isPaused
    c) (callStatus c) (simulationData c) (currentSlideIndex c)
    (currentSequenceIndex c) (imageLoaded c) (isProcessing c)
    (isLoadingVisuals c) (isStarting c) (highlightHotspot c) (dropdownOpen c)
    (dropdownValue c) (checkboxChecked c) (textInputValue c) (showCoachingTip
    c) (userInput c) v (expectedTraineeResponse c) (currentMessage c).

Definition setExpectedTraineeResponse (v : string) (c : Comp) : Comp :=
  mkComp (isStarted c) (isEndingChat c) (simulationProgressId c)
    (showCompletionScreen c) (scores c) (duration c) (elapsedTime c) (isPaused
    c) (callStatus c) (simulationData c) (currentSlideIndex c)
    (currentSequenceIndex c) (imageLoaded c) (isProcessing c)
    (isLoadingVisuals c) (isStarting c) (highlightHotspot c) (dropdownOpen c)
    (dropdownValue c) (checkboxChecked c) (textInputValue c) (showCoachingTip
    c) (userInput c) (waitingForUserInput c) v (currentMessage c).

Definition setCurrentMessage (v : option Message) (c : Comp) : Comp :=
  mkComp (isStarted c) (isEndingChat c) (simulationProgressId c)
    (showCompletionScreen c) (scores c) (duration c) (elapsedTime c) (isPaused
    c) (callStatus c) (simulationData c) (currentSlideIndex c)
    (currentSequenceIndex c) (imageLoaded c) (isProcessing c)
    (isLoadingVisuals c) (isStarting c) (highlightHotspot c) (dropdownOpen c)
    (dropdownValue c) (checkboxChecked c) (textInputValue c) (showCoachingTip
    c) (userInput c) (waitingForUserInput c) (expectedTraineeResponse c) v.
Definition initialComp : Comp :=
  {| isStarted := false; isEndingChat := false; simulationProgressId := None;
     showCompletionScreen := false; scores := None; duration := 0;
     elapsedTime := 0; isPaused := false; callStatus := "Online";
     simulationData := None; currentSlideIndex := 0; currentSequenceIndex := 0;
     imageLoaded := false; isProcessing := false; isLoadingVisuals := false;
     isStarting := false; highlightHotspot := false; dropdownOpen := false;
     dropdownValue := ""; checkboxChecked := false; textInputValue := "";
     showCoachingTip := false; userInput := ""; waitingForUserInput := false;
     expectedTraineeResponse := ""; currentMessage := None |}.

(** Check if simulation was passed based on scores *)
Definition isPassed (sc : option Scores) : bool :=
  match sc with
  | Some s => (MIN_PASSING_SCORE <=? SimAccuracy s)%float
  | None => false
  end.

(** Get current slide and sequence data *)
Definition slidesOf (c : Comp) : list Slide :=
  match simulationData c with Some d => slidesData d | None => [] end.

Definition currentSlide (c : Comp) : option Slide :=
  Js.index (slidesOf c) (currentSlideIndex c).

Definition currentSequence (c : Comp) : list SequenceItem :=
  match currentSlide c with
  | Some sl => match sequence sl with Some q => q | None => [] end
  | None => []
  end.

Definition currentItem (c : Comp) : option SequenceItem :=
  Js.index (currentSequence c) (currentSequenceIndex c).

(** [currentItem.hotspotType || "button"] *)
Definition hotspotTypeOf (it : SequenceItem) : string :=
  match hotspotType it with
  | Some t => if Js.truthy t then t else "button"
  | None => "button"
  end.

Definition isCustomerRole (it : SequenceItem) : bool :=
  match role it with
  | Some r => (r =? "Customer")%string || (r =? "customer")%string
  | None => false
  end.

Definition textOf (it : SequenceItem) : string :=
  match text it with Some t => if Js.truthy t then t else "" | None => "" end.

(** ** Outside the render state *)

(** The bodies handed to [setTimeout], by the place that schedules them. *)
Inductive Callback : Type :=
| CustomerAdvance   (* processItem, customer message *)
| FocusInput        (* processItem, trainee message *)
| TimeoutAdvance    (* processItem, hotspot with a timeout *)
| CheckboxAdvance   (* handleHotspotClick, checkbox *)
| SelectAdvance     (* handleDropdownSelect *)
| SubmitAdvance     (* handleSubmitMessage *)
| SuggestedSubmit.  (* the "Use Suggested Response" button *)

(** A pending [setTimeout]: its body, its delay in milliseconds and the
    render whose variables the body closes over. *)
Record Timeout : Type := mkTimeout {
  callback : Callback;
  delay : Z;
  closure : Comp
}.

(** The [setInterval] callback closes over [isPaused] and [isStarted]. *)
Record Interval : Type := mkInterval {
  iv_isPaused : bool;
  iv_isStarted : bool
}.

Record ApiParams : Type := mkApiParams {
  user_id : string;
  simulation_id : string;
  usersimulationprogress_id : string
}.

Record World : Type := mkWorld {
  comp : Comp;
  timeouts : list Timeout;       (* pending setTimeout calls, oldest first *)
  timerRef : option Interval;    (* timerRef.current *)
  endCalls : list ApiParams;     (* POSTs to end-visual-chat so far, oldest first *)
  endPending : list Comp;        (* handleEndChat calls awaiting their response *)
  startCalls : nat;              (* POSTs to start-visual-chat-preview so far *)
  startPending : nat             (* handleStart calls awaiting their response *)
}.

(** What the component receives from outside: the authenticated user
    ([user?.id || '']) and the [simulationId] prop.

    The third field is about the text of the component itself.  It
    uses a state cell [isStarting] with its setter (in [handleStart],
    and in the [disabled] and the label of the start button), but
    holds no declaration of it.  As the source stands, reading
    [isStarting] while the start screen is drawn and calling
    [setIsStarting(true)] in [handleStart] both raise a
    ReferenceError: that is [declaresIsStarting = false], where the
    start handler ends at the call and no session ever starts.  With
    [declaresIsStarting = true] the declaration
    [const [isStarting, setIsStarting] = useState(false)] is taken as
    supplied, and the cell is the field [isStarting] of [Comp]. *)
Record Props : Type := mkProps {
  userId : string;
  simulationId : string;
  declaresIsStarting : bool
}.

(** A piece of handler code: it runs to completion on the live state. *)
Definition Act : Type := World -> World.

Definition skip : Act := fun w => w.

Definition andThen (a b : Act) : Act := fun w => b (a w).

Notation "a ;; b" := (andThen a b) (at level 61, right associativity).

(** [setX(v)] and [setX(prev => ...)]: the updates of one callback are
    applied together, in order, before the next render. *)
Definition update (f : Comp -> Comp) : Act :=
  fun w => mkWorld (f (comp w)) (timeouts w) (timerRef w) (endCalls w)
             (endPending w) (startCalls w) (startPending w).

Definition setTimeout (cb : Callback) (ms : Z) (cl : Comp) : Act :=
  fun w => mkWorld (comp w) (timeouts w ++ [mkTimeout cb ms cl]) (timerRef w)
             (endCalls w) (endPending w) (startCalls w) (startPending w).

Definition setTimerRef (r : option Interval) : Act :=
  fun w => mkWorld (comp w) (timeouts w) r (endCalls w) (endPending w)
             (startCalls w) (startPending w).

Definition setTimeouts (ts : list Timeout) : Act :=
  fun w => mkWorld (comp w) ts (timerRef w) (endCalls w) (endPending w)
             (startCalls w) (startPending w).

Definition postEnd (params : ApiParams) (cl : Comp) : Act :=
  fun w => mkWorld (comp w) (timeouts w) (timerRef w) (endCalls w ++ [params])
             (endPending w ++ [cl]) (startCalls w) (startPending w).

Definition setEndPending (l : list Comp) : Act :=
  fun w => mkWorld (comp w) (timeouts w) (timerRef w) (endCalls w) l
             (startCalls w) (startPending w).

Definition postStart : Act :=
  fun w => mkWorld (comp w) (timeouts w) (timerRef w) (endCalls w)
             (endPending w) (S (startCalls w)) (S (startPending w)).

Definition setStartPending (n : nat) : Act :=
  fun w => mkWorld (comp w) (timeouts w) (timerRef w) (endCalls w)
             (endPending w) (startCalls w) n.

(** ** Handlers

    Each takes the render [cl] it was created in. *)

(** Move to next item in sequence *)
Definition moveToNextItem (cl : Comp) : Act :=
  if currentSequenceIndex cl <? Js.length (currentSequence cl) - 1 then
    (* Next item in current slide *)
    update (fun prev => setCurrentSequenceIndex (currentSequenceIndex prev + 1) prev)
  else if currentSlideIndex cl <? Js.length (slidesOf cl) - 1 then
    (* First item in next slide *)
    update (fun prev => setCurrentSlideIndex (currentSlideIndex prev + 1) prev) ;;
    update (setCurrentSequenceIndex 0) ;;
    update (setImageLoaded false)
  else
    (* End of slideshow *)
    update (setHighlightHotspot false).

(** Handle hotspot click based on type *)
Definition handleHotspotClick (cl : Comp) : Act :=
  match currentItem cl with
  | None => skip
  | Some it =>
      if negb (isStarted cl) || negb (item_type it =? "hotspot")%string
         || isProcessing cl || isPaused cl
      then skip
      else
        let hotspotType := hotspotTypeOf it in
        if (hotspotType =? "button")%string || (hotspotType =? "highlight")%string then
          update (setHighlightHotspot false) ;; moveToNextItem cl
        else if (hotspotType =? "dropdown")%string then
          update (setDropdownOpen (negb (dropdownOpen cl)))
        else if (hotspotType =? "checkbox")%string then
          update (setCheckboxChecked true) ;;
          setTimeout CheckboxAdvance 800 cl
        else if (hotspotType =? "coaching")%string
                || (hotspotType =? "coachingtip")%string then
          update (setShowCoachingTip false) ;; moveToNextItem cl
        else skip
  end.

(** [currentItem?.settings?.advanceOnSelect] as a condition *)
Definition advanceOnSelectOf (cl : Comp) : bool :=
  match currentItem cl with
  | Some it =>
      match settings it with
      | Some st => match advanceOnSelect st with Some b => b | None => false end
      | None => false
      end
  | None => false
  end.

(** Handle dropdown option selection *)
Definition handleDropdownSelect (option : string) (cl : Comp) : Act :=
  update (setDropdownValue option) ;;
  update (setDropdownOpen false) ;;
  if advanceOnSelectOf cl then setTimeout SelectAdvance 500 cl else skip.

(** Handle text input submission *)
Definition handleTextInputSubmit (key : string) (cl : Comp) : Act :=
  if (key =? "Enter")%string then moveToNextItem cl else skip.

(** Handle user input submission *)
Definition handleSubmitMessage (cl : Comp) : Act :=
  if negb (Js.truthy (Js.trim (userInput cl))) || negb (waitingForUserInput cl)
  then skip
  else
    update (setCurrentMessage (Some (mkMessage trainee (userInput cl)))) ;;
    update (setUserInput "") ;;
    update (setWaitingForUserInput false) ;;
    update (setExpectedTraineeResponse "") ;;
    setTimeout SubmitAdvance 500 cl.

(** Handle key press in chat input *)
Definition handleKeyPress (key : string) (shiftKey : bool) (cl : Comp) : Act :=
  if (key =? "Enter")%string && negb shiftKey then handleSubmitMessage cl else skip.

(** The "Use Suggested Response" button *)
Definition useSuggestedResponse (cl : Comp) : Act :=
  update (setUserInput (expectedTraineeResponse cl)) ;;
  setTimeout SuggestedSubmit 100 cl.

(** Toggle pause/play *)
Definition togglePause (cl : Comp) : Act :=
  update (setIsPaused (negb (isPaused cl))).

(** Calculate image scale when loaded (both refs are attached) *)
Definition handleImageLoad : Act := update (setImageLoaded true).

(** [handleStart], up to the request.  Without the declaration of
    [setIsStarting] its call, the first statement after the check of
    the user, raises a ReferenceError: the handler ends there, before
    any update and before the request. *)
Definition handleStart (p : Props) : Act :=
  if negb (Js.truthy (userId p)) then skip
  else if negb (declaresIsStarting p) then skip
  else
    update (setIsStarting true) ;;
    update (setIsLoadingVisuals true) ;;
    update (setIsStarted true) ;;
    update (setCallStatus "Loading visual-chat simulation...") ;;
    postStart.

Inductive StartOutcome : Type :=
| StartOk (simulation : option SimulationData) (id : string)
| StartFail.

(** [handleStart], from the response on.  The [finally] block calls
    [setIsStarting] first: without its declaration the block ends
    there, after the updates of the [try] or [catch] block. *)
Definition handleStartResponse (p : Props) (r : StartOutcome) : Act :=
  fun w =>
    match startPending w with
    | O => w
    | S n =>
        (setStartPending n ;;
         match r with
         | StartOk (Some d) id =>
             update (setSimulationData (Some d)) ;;
             update (setSimulationProgressId (Some id)) ;;
             update (setCallStatus "Online")
         | StartOk None _ => skip
         | StartFail =>
             update (setIsStarted false) ;;
             update (setCallStatus "Error loading simulation. Please try again.")
         end ;;
         if declaresIsStarting p then
           update (setIsStarting false) ;;
           update (setIsLoadingVisuals false)
         else skip) w
    end.

(** Handle end chat implementation: up to the request. *)
Definition handleEndChat (p : Props) (cl : Comp) : Act :=
  (* Prevent multiple simultaneous end call attempts *)
  if isEndingChat cl then skip
  (* Verify user ID exists *)
  else if negb (Js.truthy (userId p)) then skip
  else
    update (setIsEndingChat true) ;;
    (* Stop the timer *)
    (fun w => match timerRef w with Some _ => setTimerRef None w | None => w end) ;;
    (* Update UI state *)
    update (setIsStarted false) ;;
    (* Ensure we have the required IDs *)
    match simulationProgressId cl with
    | Some id =>
        if Js.truthy id then
          postEnd (mkApiParams (userId p) (simulationId p) id) cl
        else update (setIsEndingChat false)
    | None => update (setIsEndingChat false)
    end.

Inductive EndOutcome : Type :=
| EndOk (sc : option Scores) (dur : Z)
| EndFail.

(** Handle end chat implementation: from the response on. *)
Definition handleEndResponse (r : EndOutcome) : Act :=
  fun w =>
    match endPending w with
    | [] => w
    | cl :: rest =>
        (setEndPending rest ;;
         match r with
         | EndOk (Some sc) dur =>
             update (setScores (Some sc)) ;;
             update (setDuration (if dur =? 0 then elapsedTime cl else dur)) ;;
             update (setShowCompletionScreen true)
         | EndOk None _ => skip
         | EndFail => skip
         end ;;
         update (setIsEndingChat false)) w
    end.

Definition handleRestartSim : Act :=
  update (setShowCompletionScreen false) ;;
  update (setIsStarted false) ;;
  update (setElapsedTime 0) ;;
  update (setScores None) ;;
  update (setCurrentSlideIndex 0) ;;
  update (setCurrentSequenceIndex 0) ;;
  update (setImageLoaded false) ;;
  update (setCurrentMessage None).

Definition handleViewPlayback : Act := update (setShowCompletionScreen false).

(** The [setInterval] callback. *)
Definition tick : Act :=
  fun w =>
    match timerRef w with
    | Some iv =>
        if negb (iv_isPaused iv) && iv_isStarted iv then
          update (fun prev => setElapsedTime (elapsedTime prev + 1) prev) w
        else w
    | None => w
    end.

(** The body of a [setTimeout]. *)
Definition runCallback (t : Timeout) : Act :=
  let cl := closure t in
  match callback t with
  | CustomerAdvance => moveToNextItem cl ;; update (setIsProcessing false)
  | FocusInput => skip
  | TimeoutAdvance =>
      moveToNextItem cl ;;
      update (setHighlightHotspot false) ;;
      update (setIsProcessing false)
  | CheckboxAdvance => moveToNextItem cl ;; update (setCheckboxChecked false)
  | SelectAdvance => moveToNextItem cl
  | SubmitAdvance => moveToNextItem cl
  | SuggestedSubmit => handleSubmitMessage cl
  end.

Fixpoint remove_nth {A : Type} (k : nat) (l : list A) : list A :=
  match l, k with
  | [], _ => []
  | _ :: r, O => r
  | x :: r, S k' => x :: remove_nth k' r
  end.

(** The [k]-th pending timeout fires. *)
Definition fireTimeout (k : nat) : Act :=
  fun w =>
    match nth_error (timeouts w) k with
    | Some t => (setTimeouts (remove_nth k (timeouts w)) ;; runCallback t) w
    | None => w
    end.

(** ** Effects

    After the updates of a callback are applied the component renders
    again, and each [useEffect] whose dependencies differ from the
    previous render runs, in the order of the source, closing over the
    new render [cur]. *)

(** Initialize timer for simulation: the cleanup clears the interval
    still held by [timerRef], then a new one is installed. *)
Definition timerEffect (cur : Comp) : Act :=
  setTimerRef (Some (mkInterval (isPaused cur) (isStarted cur))).

Definition isCoachingTip (it : SequenceItem) : bool :=
  (item_type it =? "hotspot")%string
  && match hotspotType it with
     | Some t => (t =? "coaching")%string || (t =? "coachingtip")%string
     | None => false
     end.

(** Reset states when moving to a new item *)
Definition resetEffect (cur : Comp) : Act :=
  update (setDropdownOpen false) ;;
  update (setDropdownValue "") ;;
  update (setCheckboxChecked false) ;;
  update (setTextInputValue "") ;;
  update (setShowCoachingTip false) ;;
  update (setHighlightHotspot false) ;;
  update (setWaitingForUserInput false) ;;
  update (setExpectedTraineeResponse "") ;;
  (* Show coaching tip immediately if it's that type *)
  match currentItem cur with
  | Some it => if isCoachingTip it then update (setShowCoachingTip true) else skip
  | None => skip
  end.

(** [timeout && timeout > 0] for [currentItem.settings?.timeoutDuration] *)
Definition positiveTimeout (it : SequenceItem) : option Z :=
  match settings it with
  | Some st =>
      match timeoutDuration st with
      | Some t => if 0 <? t then Some t else None
      | None => None
      end
  | None => None
  end.

(** The hotspot kinds that never advance on a timeout. *)
Definition waitsForInteraction (hotspotType : string) : bool :=
  (hotspotType =? "button")%string
  || (hotspotType =? "dropdown")%string
  || (hotspotType =? "checkbox")%string.

Definition processItem (cur : Comp) (it : SequenceItem) : Act :=
  update (setIsProcessing true) ;;
  if (item_type it =? "message")%string then
    (* For customer messages, automatically display *)
    if isCustomerRole it then
      update (setCurrentMessage (Some (mkMessage customer (textOf it)))) ;;
      (* Auto-advance after a short delay *)
      setTimeout CustomerAdvance 800 cur
    (* For trainee messages, wait for user input *)
    else
      update (setWaitingForUserInput true) ;;
      update (setExpectedTraineeResponse (textOf it)) ;;
      update (setIsProcessing false) ;;
      setTimeout FocusInput 100 cur
  else if (item_type it =? "hotspot")%string then
    (* For hotspots, highlight and wait for click *)
    update (setHighlightHotspot true) ;;
    (* Auto-advance if timeout is set - BUT NEVER FOR BUTTONS OR DROPDOWNS *)
    match positiveTimeout it with
    | Some timeout =>
        if negb (waitsForInteraction (hotspotTypeOf it)) then
          setTimeout TimeoutAdvance (timeout * 1000) cur
        else update (setIsProcessing false)
    | None => update (setIsProcessing false)
    end
  else update (setIsProcessing false).

(** Process current sequence item *)
Definition processEffect (cur : Comp) : Act :=
  match currentItem cur with
  | None => skip
  | Some it =>
      if isProcessing cur || negb (imageLoaded cur) || isPaused cur
         || negb (isStarted cur)
      then skip
      else processItem cur it
  end.

Definition timerDeps (prev cur : Comp) : bool :=
  negb (Bool.eqb (isPaused prev) (isPaused cur))
  || negb (Bool.eqb (isStarted prev) (isStarted cur)).

Definition resetDeps (prev cur : Comp) : bool :=
  negb (currentSequenceIndex prev =? currentSequenceIndex cur)
  || negb (currentSlideIndex prev =? currentSlideIndex cur).

(** [newData] says that a new [simulationData] object was stored, so
    that [currentItem] is a different object. *)
Definition processDeps (newData : bool) (prev cur : Comp) : bool :=
  newData
  || resetDeps prev cur
  || negb (Bool.eqb (imageLoaded prev) (imageLoaded cur))
  || negb (Bool.eqb (isPaused prev) (isPaused cur))
  || negb (Bool.eqb (isProcessing prev) (isProcessing cur))
  || negb (Bool.eqb (isStarted prev) (isStarted cur)).

(** One render after [prev], with its effects. *)
Definition commit (newData : bool) (prev : Comp) : Act :=
  fun w =>
    let cur := comp w in
    ((if timerDeps prev cur then timerEffect cur else skip) ;;
     (if resetDeps prev cur then resetEffect cur else skip) ;;
     (if processDeps newData prev cur then processEffect cur else skip)) w.

(** The effects update the state themselves, which renders once more;
    [commit_settles] below shows that nothing changes after that. *)
Definition render (newData : bool) (prev : Comp) : Act :=
  fun w =>
    let w1 := commit newData prev w in
    commit false (comp w) w1.

(** ** Events *)

Inductive Event : Type :=
| Tick                                   (* the interval fires *)
| TimeoutFires (k : nat)                 (* the k-th pending timeout fires *)
| ImageLoad                              (* onLoad of the slide image *)
| HotspotClick
| DropdownSelect (option : string)
| DropdownClose                          (* onClose of the Select *)
| TextInputChange (value : string)
| TextInputKeyDown (key : string)
| UserInputChange (value : string)
| SubmitMessage                          (* onSubmit of the form *)
| KeyPress (key : string) (shiftKey : bool)
| UseSuggested
| TogglePause
| Start
| StartResponse (r : StartOutcome)
| EndChat
| EndResponse (r : EndOutcome)
| RestartSim
| ViewPlayback.

(** The callback an event runs, in the render the world is in. *)
Definition handler (p : Props) (e : Event) (cl : Comp) : Act :=
  match e with
  | Tick => tick
  | TimeoutFires k => fireTimeout k
  | ImageLoad => handleImageLoad
  | HotspotClick => handleHotspotClick cl
  | DropdownSelect option => handleDropdownSelect option cl
  | DropdownClose => update (setDropdownOpen false)
  | TextInputChange value => update (setTextInputValue value)
  | TextInputKeyDown key => handleTextInputSubmit key cl
  | UserInputChange value => update (setUserInput value)
  | SubmitMessage => handleSubmitMessage cl
  | KeyPress key shiftKey => handleKeyPress key shiftKey cl
  | UseSuggested => useSuggestedResponse cl
  | TogglePause => togglePause cl
  | Start => handleStart p
  | StartResponse r => handleStartResponse p r
  | EndChat => handleEndChat p cl
  | EndResponse r => handleEndResponse r
  | RestartSim => handleRestartSim
  | ViewPlayback => handleViewPlayback
  end.

Definition storesData (e : Event) (w : World) : bool :=
  match e with
  | StartResponse (StartOk (Some _) _) => negb (Nat.eqb (startPending w) 0)
  | _ => false
  end.

(** One event, processed to completion. *)
Definition step (p : Props) (w : World) (e : Event) : World :=
  render (storesData e w) (comp w) (handler p e (comp w) w).

Definition run (p : Props) (w : World) (es : list Event) : World :=
  fold_left (step p) es w.

(** The world after the component has mounted. *)
Definition initialWorld : World :=
  mkWorld initialComp [] (Some (mkInterval false false)) [] [] 0 0.

(** The current position. *)
Definition position (w : World) : Z * Z :=
  (currentSlideIndex (comp w), currentSequenceIndex (comp w)).

(** ** Notions used in the statements *)

(** The action [a] leaves what [f] reads as it is. *)
Definition preserves {A : Type} (f : World -> A) (a : Act) : Prop :=
  forall w, f (a w) = f w.

(** Readings of the render state of a world. *)
Definition slideIndex (w : World) : Z := currentSlideIndex (comp w).
Definition itemIndex (w : World) : Z := currentSequenceIndex (comp w).
Definition elapsed (w : World) : Z := elapsedTime (comp w).
Definition paused (w : World) : bool := isPaused (comp w).
Definition started (w : World) : bool := isStarted (comp w).

(** Lexicographic order on (slide index, item index). *)
Definition lex_le (a b : Z * Z) : Prop :=
  fst a < fst b \/ (fst a = fst b /\ snd a <= snd b).

(** The action [a] never moves the position backward. *)
Definition advances (a : Act) : Prop :=
  forall w, lex_le (position w) (position (a w)).

(** The interval held by [timerRef] closes over the current values of
    [isPaused] and [isStarted]; there is none only when the simulation
    is not started. *)
Definition timerCoherent (w : World) : bool :=
  match timerRef w with
  | Some iv =>
      Bool.eqb (iv_isPaused iv) (paused w) && Bool.eqb (iv_isStarted iv) (started w)
  | None => negb (started w)
  end.

(** Started and not paused. *)
Definition playing (w : World) : bool := started w && negb (paused w).

(** The ticks of [es] that arrive while the simulation is playing. *)
Fixpoint playingTicks (p : Props) (w : World) (es : list Event) : Z :=
  match es with
  | [] => 0
  | e :: rest =>
      (match e with Tick => if playing w then 1 else 0 | _ => 0 end)
      + playingTicks p (step p w e) rest
  end.

Definition processing (w : World) : bool := isProcessing (comp w).
Definition loaded (w : World) : bool := imageLoaded (comp w).
Definition data (w : World) : option SimulationData := simulationData (comp w).

(** The position that follows the current one: the next item of the
    slide, else the first item of the next slide, else the same. *)
Definition nextPosition (c : Comp) : Z * Z :=
  if currentSequenceIndex c + 1 <? Js.length (currentSequence c) then
    (currentSlideIndex c, currentSequenceIndex c + 1)
  else if currentSlideIndex c + 1 <? Js.length (slidesOf c) then
    (currentSlideIndex c + 1, 0)
  else (currentSlideIndex c, currentSequenceIndex c).

(** Whether the body of a timeout calls [moveToNextItem] first thing. *)
Definition advancing (cb : Callback) : bool :=
  match cb with
  | CustomerAdvance | TimeoutAdvance | CheckboxAdvance | SelectAdvance
  | SubmitAdvance => true
  | FocusInput | SuggestedSubmit => false
  end.

(** An interval that closed over [isStarted = false], or no interval at
    all: the clock is stopped. *)
Definition clockStopped (w : World) : bool :=
  match timerRef w with
  | Some iv => negb (iv_isStarted iv)
  | None => true
  end.

(** The world the processing effect starts from: the timer effect and
    the reset effect have run. *)
Definition settled (prev : Comp) (w : World) : World :=
  ((if timerDeps prev (comp w) then timerEffect (comp w) else skip) ;;
   (if resetDeps prev (comp w) then resetEffect (comp w) else skip)) w.


(** The guard of the processing effect is closed. *)
Definition blocked (c : Comp) : bool :=
  isProcessing c || negb (imageLoaded c) || isPaused c || negb (isStarted c).







(** ** Simulations to run *)

Module Demo.

(** The declaration of [isStarting] is supplied, so that a session
    can start. *)
Definition props : Props := mkProps "u-17" "sim-4" true.

Definition box : Coordinates := mkCoordinates 10 20 120 40.

Definition hotspot (id kind : string) (st : option Settings) : SequenceItem :=
  mkItem "hotspot" id (Some kind) (Some box) st None None None.

Definition message (id who txt : string) : SequenceItem :=
  mkItem "message" id None None None (Some who) (Some txt) None.

(** One slide: a checkbox and two buttons. *)
Definition form : SimulationData :=
  mkSimulationData "sim-4"
    [mkSlide "img-1"
       (Some [hotspot "h1" "checkbox" None;
              hotspot "h2" "button" None;
              hotspot "h3" "button" None])].

(** Started, data received, image loaded: the checkbox is current. *)
Definition playingForm : World :=
  run props initialWorld
    [Start; StartResponse (StartOk (Some form) "progress-1"); ImageLoad].

(** Started, but the response carried no simulation. *)
Definition startedWithoutData : World :=
  run props initialWorld [Start; StartResponse (StartOk None "")].

End Demo.

Module Timed.








End Timed.

Module Chat.

(** A customer message, then a trainee message. *)
Definition script : SimulationData :=
  mkSimulationData "sim-7"
    [mkSlide "img-1"
       (Some [Demo.message "m1" "Customer" "Hi";
              Demo.message "m2" "Trainee" "Hello, how can I help?"])].

(** Playing, the customer message shown and its advance pending. *)
Definition greeted : World :=
  run Demo.props initialWorld
    [Start; StartResponse (StartOk (Some script) "progress-7"); ImageLoad].

(** The timeout has fired: the engine waits for the trainee; the
    timeout that focuses the input has fired as well. *)
Definition asked : World := run Demo.props greeted [TimeoutFires 0; TimeoutFires 0].

End Chat.

Module Menu.

(** A dropdown that does not advance on selection, then a button. *)
Definition item : SequenceItem :=
  mkItem "hotspot" "d1" (Some "dropdown") (Some Demo.box)
    (Some (mkSettings None (Some false))) None None (Some ["A"; "B"]).

Definition sim : SimulationData :=
  mkSimulationData "sim-8"
    [mkSlide "img-1" (Some [item; Demo.hotspot "h2" "button" None])].

Definition shown : World :=
  run Demo.props initialWorld
    [Start; StartResponse (StartOk (Some sim) "progress-8"); ImageLoad].

End Menu.

(** ** Formatting the time *)

(** [n.toString()] for an integer [n]. *)
Definition toString (n : Z) : string := NilZero.string_of_int (Z.to_int n).

Fixpoint replicate (n : nat) (a : ascii) : string :=
  match n with
  | O => EmptyString
  | S n' => String a (replicate n' a)
  end.

(** [s.padStart(targetLength, pad)] for a pad string of one character. *)
Definition padStart (targetLength : nat) (pad : ascii) (s : string) : string :=
  (replicate (targetLength - String.length s) pad ++ s)%string.

(** Format time as MM:SS; [Math.floor(seconds / 60)] is the floor
    division and [%] the remainder with the sign of the dividend. *)
Definition formatTime (seconds : Z) : string :=
  let mins := padStart 2 "0" (toString (seconds / 60)) in
  let secs := padStart 2 "0" (toString (Z.rem seconds 60)) in
  (mins ++ ":" ++ secs)%string.

(** Reading the format back (not part of the component). *)

Definition isDigit (a : ascii) : bool :=
  let n := nat_of_ascii a in ((48 <=? n) && (n <=? 57))%nat.

Fixpoint allDigits (s : string) : bool :=
  match s with
  | EmptyString => true
  | String a r => isDigit a && allDigits r
  end.

(** The part before the first [sep] and the part after it. *)
Fixpoint splitAt (sep : ascii) (s : string) : option (string * string) :=
  match s with
  | EmptyString => None
  | String a r =>
      if Ascii.eqb a sep then Some (EmptyString, r)
      else match splitAt sep r with
           | Some (x, y) => Some (String a x, y)
           | None => None
           end
  end.

Definition readNat (s : string) : option Z :=
  option_map Z.of_uint (NilEmpty.uint_of_string s).

Definition parseTime (s : string) : option Z :=
  match splitAt ":" s with
  | Some (m, r) =>
      match readNat m, readNat r with
      | Some a, Some b => Some (a * 60 + b)
      | _, _ => None
      end
  | None => None
  end.

(** ** Requests in flight *)

(** Either no end request is in flight and the guard is down, or
    exactly one is and the guard is up. *)
Definition endCoherent (w : World) : Prop :=
  (endPending w = [] /\ isEndingChat (comp w) = false)
  \/ (exists cl, endPending w = [cl] /\ isEndingChat (comp w) = true).

(** An end request carries a user and a progress identifier. *)
Definition wellFormed (a : ApiParams) : Prop :=
  Js.truthy (user_id a) = true /\ Js.truthy (usersimulationprogress_id a) = true.

(** The number of clock ticks among the events. *)
Fixpoint ticks (es : list Event) : Z :=
  match es with
  | [] => 0
  | Tick :: rest => 1 + ticks rest
  | _ :: rest => ticks rest
  end.

(** Every slide has at least one item. *)
Definition scripted (c : Comp) : Prop :=
  forall sl, In sl (slidesOf c) ->
             exists it q, sequence sl = Some (it :: q).

(** * Properties *)

(** ** Strings *)

Lemma trimStart_blank (s : string) :
  Js.blank s = true -> Js.trimStart s = "".
Proof.
  induction s as [|a r IH]; cbn; [reflexivity|].
  destruct (Js.is_whitespace a); cbn; [exact IH | discriminate].
Qed.

Lemma trimEnd_nonblank (s : string) :
  Js.blank s = false -> Js.truthy (Js.trimEnd s) = true.
Proof.
  induction s as [|a r IH]; cbn; [discriminate|].
  destruct (Js.is_whitespace a) eqn:Ha; cbn.
  - intros Hr. specialize (IH Hr).
    destruct (Js.trimEnd r); [discriminate | reflexivity].
  - intros _. destruct (Js.trimEnd r); reflexivity.
Qed.

Lemma trimStart_nonblank (s : string) :
  Js.blank s = false -> Js.blank (Js.trimStart s) = false.
Proof.
  induction s as [|a r IH]; cbn; [discriminate|].
  destruct (Js.is_whitespace a) eqn:Ha; cbn; [exact IH|].
  intros _. now rewrite Ha.
Qed.

(** [s.trim()] is the empty string exactly when [s] is empty or made of
    white space only. *)
Lemma trim_truthy (s : string) :
  Js.truthy (Js.trim s) = negb (Js.blank s).
Proof.
  unfold Js.trim. destruct (Js.blank s) eqn:Hb; cbn.
  - now rewrite trimStart_blank.
  - apply trimEnd_nonblank, trimStart_nonblank, Hb.
Qed.

(** ** What an action leaves alone *)

Lemma preserves_skip {A : Type} (f : World -> A) : preserves f skip.
Proof. intros w. reflexivity. Qed.

Lemma preserves_andThen {A : Type} (f : World -> A) (a b : Act) :
  preserves f a -> preserves f b -> preserves f (a ;; b).
Proof. intros Ha Hb w. unfold andThen. now rewrite Hb, Ha. Qed.

(** Splits an action along its control flow; the leaves are single
    updates, which compute. *)
Ltac preserve :=
  repeat match goal with
    | |- preserves _ skip => apply preserves_skip
    | |- preserves _ (andThen _ _) => apply preserves_andThen
    | |- preserves _ (if ?b then _ else _) => destruct b
    | |- preserves _ (match ?x with _ => _ end) => destruct x
    end;
  try (intros ?; reflexivity).

Lemma commit_preserves {A : Type} (f : World -> A) :
  (forall cur, preserves f (timerEffect cur)) ->
  (forall cur, preserves f (resetEffect cur)) ->
  (forall cur, preserves f (processEffect cur)) ->
  forall newData prev, preserves f (commit newData prev).
Proof.
  intros Ht Hr Hp newData prev w. unfold commit.
  set (cur := comp w).
  apply preserves_andThen; [|apply preserves_andThen].
  - destruct (timerDeps prev cur); [apply Ht | apply preserves_skip].
  - destruct (resetDeps prev cur); [apply Hr | apply preserves_skip].
  - destruct (processDeps newData prev cur); [apply Hp | apply preserves_skip].
Qed.

Lemma render_preserves {A : Type} (f : World -> A) :
  (forall cur, preserves f (timerEffect cur)) ->
  (forall cur, preserves f (resetEffect cur)) ->
  (forall cur, preserves f (processEffect cur)) ->
  forall newData prev, preserves f (render newData prev).
Proof.
  intros Ht Hr Hp newData prev w. unfold render.
  now rewrite !commit_preserves.
Qed.

(** The effects never touch what [f] reads. *)
Ltac effects_preserve :=
  apply render_preserves; intros cur;
  unfold timerEffect, resetEffect, processEffect, processItem; preserve.

Lemma render_slideIndex newData prev : preserves slideIndex (render newData prev).
Proof. effects_preserve. Qed.

Lemma render_itemIndex newData prev : preserves itemIndex (render newData prev).
Proof. effects_preserve. Qed.

Lemma render_position newData prev : preserves position (render newData prev).
Proof. effects_preserve. Qed.

Lemma render_elapsed newData prev : preserves elapsed (render newData prev).
Proof. effects_preserve. Qed.

Lemma render_paused newData prev : preserves paused (render newData prev).
Proof. effects_preserve. Qed.

Lemma render_started newData prev : preserves started (render newData prev).
Proof. effects_preserve. Qed.

Lemma render_endCalls newData prev : preserves endCalls (render newData prev).
Proof. effects_preserve. Qed.

Lemma render_endPending newData prev : preserves endPending (render newData prev).
Proof. effects_preserve. Qed.

Lemma render_scores newData prev :
  preserves (fun w => scores (comp w)) (render newData prev).
Proof. effects_preserve. Qed.

Lemma render_showCompletionScreen newData prev :
  preserves (fun w => showCompletionScreen (comp w)) (render newData prev).
Proof. effects_preserve. Qed.

Lemma render_isEndingChat newData prev :
  preserves (fun w => isEndingChat (comp w)) (render newData prev).
Proof. effects_preserve. Qed.

Lemma render_simulationProgressId newData prev :
  preserves (fun w => simulationProgressId (comp w)) (render newData prev).
Proof. effects_preserve. Qed.

(** ** Pass or fail *)

(** C1: with a result in hand the session is passed exactly when its
    "Sim Accuracy" is at least 85 (the comparison of JavaScript numbers);
    85 passes and 84.999 fails whatever the five other metrics are; with
    no result the session is not passed. *)
Theorem isPassed_threshold :
  (forall sc : Scores,
      isPassed (Some sc) = true <-> (85 <=? SimAccuracy sc)%float = true)
  /\ (forall k c f e n : float, isPassed (Some (mkScores 85 k c f e n)) = true)
  /\ (forall k c f e n : float, isPassed (Some (mkScores 84.999 k c f e n)) = false)
  /\ isPassed None = false.
Proof.
  repeat split; intros; cbn; try reflexivity; try assumption.
Qed.

(** ** Progress *)

Lemma lex_le_refl a : lex_le a a.
Proof. right. lia. Qed.

Lemma lex_le_trans a b c : lex_le a b -> lex_le b c -> lex_le a c.
Proof. unfold lex_le. lia. Qed.

Lemma advances_preserves a : preserves position a -> advances a.
Proof. intros H w. rewrite H. apply lex_le_refl. Qed.

Lemma advances_andThen a b : advances a -> advances b -> advances (a ;; b).
Proof. intros Ha Hb w. eapply lex_le_trans; [apply Ha | apply Hb]. Qed.

Lemma moveToNextItem_advances cl : advances (moveToNextItem cl).
Proof.
  unfold moveToNextItem.
  destruct (_ <? _); [|destruct (_ <? _)]; intros w;
    unfold lex_le, position, andThen, update; cbn; lia.
Qed.

Ltac advance :=
  repeat match goal with
    | |- advances skip => apply advances_preserves, preserves_skip
    | |- advances (moveToNextItem _) => apply moveToNextItem_advances
    | |- advances (andThen _ _) => apply advances_andThen
    | |- advances (if ?b then _ else _) => destruct b
    | |- advances (match ?x with _ => _ end) => destruct x
    end;
  try (apply advances_preserves; intros ?; reflexivity).

Lemma handleSubmitMessage_advances cl : advances (handleSubmitMessage cl).
Proof. unfold handleSubmitMessage. advance. Qed.

Lemma runCallback_advances t : advances (runCallback t).
Proof.
  unfold runCallback. destruct (callback t); advance.
  apply handleSubmitMessage_advances.
Qed.

Lemma fireTimeout_advances k : advances (fireTimeout k).
Proof.
  intros w. unfold fireTimeout.
  destruct (nth_error (timeouts w) k) as [t|]; [|apply lex_le_refl].
  apply (advances_andThen (setTimeouts _) (runCallback t)).
  - apply advances_preserves. intros ?. reflexivity.
  - apply runCallback_advances.
Qed.

Lemma handler_advances p e cl :
  e <> RestartSim -> advances (handler p e cl).
Proof.
  intros He. destruct e; cbn [handler]; try congruence.
  - intros w. unfold tick.
    destruct (timerRef w) as [iv|]; [|apply lex_le_refl].
    destruct (_ && _); apply lex_le_refl.
  - apply fireTimeout_advances.
  - unfold handleImageLoad. advance.
  - unfold handleHotspotClick. advance.
  - unfold handleDropdownSelect. advance.
  - advance.
  - advance.
  - unfold handleTextInputSubmit. advance.
  - advance.
  - apply handleSubmitMessage_advances.
  - unfold handleKeyPress. advance. apply handleSubmitMessage_advances.
  - unfold useSuggestedResponse. advance.
  - unfold togglePause. advance.
  - unfold handleStart. advance.
  - intros w. unfold handleStartResponse.
    destruct (startPending w); [apply lex_le_refl|].
    destruct r as [[d|] id|], (declaresIsStarting p); apply lex_le_refl.
  - unfold handleEndChat. advance.
    all: intros w; destruct (timerRef w); apply lex_le_refl.
  - intros w. unfold handleEndResponse.
    destruct (endPending w); [apply lex_le_refl|].
    destruct r as [[sc|] d|]; apply lex_le_refl.
  - unfold handleViewPlayback. advance.
Qed.

Lemma step_position p w e :
  position (step p w e) = position (handler p e (comp w) w).
Proof. unfold step. apply render_position. Qed.

(** C2: no event other than the restart moves the position backward in
    the lexicographic order, neither does a sequence of such events, and
    the restart puts the position at (0, 0). *)
Theorem position_monotone :
  (forall p w e, e <> RestartSim -> lex_le (position w) (position (step p w e)))
  /\ (forall p es w,
        ~ In RestartSim es -> lex_le (position w) (position (run p w es)))
  /\ (forall p w, position (step p w RestartSim) = (0, 0)).
Proof.
  assert (H1 : forall p w e,
             e <> RestartSim -> lex_le (position w) (position (step p w e))).
  { intros p w e He. rewrite step_position. now apply handler_advances. }
  split; [exact H1 | split].
  - intros p es. induction es as [|e es IH]; intros w Hin; cbn.
    + apply lex_le_refl.
    + eapply lex_le_trans.
      * apply (H1 p w e). intros ->. apply Hin. now left.
      * apply IH. intros Hr. apply Hin. now right.
  - intros p w. rewrite step_position. reflexivity.
Qed.

(** ** The clock *)

(** Unfolds the handlers and follows every branch. *)
Ltac by_cases :=
  unfold handler, tick, fireTimeout, runCallback, handleImageLoad,
    handleHotspotClick, handleDropdownSelect, handleTextInputSubmit,
    handleKeyPress, handleSubmitMessage, useSuggestedResponse, togglePause,
    handleStart, handleStartResponse, handleEndChat, handleEndResponse,
    handleRestartSim, handleViewPlayback, moveToNextItem;
  repeat (unfold andThen; cbv beta;
          match goal with
          | |- context [match ?x with _ => _ end] => destruct x
          end);
  unfold andThen; cbv beta.

Lemma handler_elapsed p e cl :
  e <> Tick -> e <> RestartSim -> preserves elapsed (handler p e cl).
Proof.
  intros H1 H2 w. destruct e; try congruence; by_cases; reflexivity.
Qed.

Lemma handler_paused p e cl :
  e <> TogglePause -> preserves paused (handler p e cl).
Proof.
  intros H1 w. destruct e; try congruence; by_cases; reflexivity.
Qed.

Lemma handler_timerRef p e cl w :
  timerRef (handler p e cl w) = timerRef w
  \/ (timerRef (handler p e cl w) = None /\ started (handler p e cl w) = false).
Proof.
  destruct e; try (left; by_cases; reflexivity).
  { left. cbn [handler]. unfold tick.
    destruct (timerRef w) as [iv|] eqn:Ht; [|exact Ht].
    destruct (_ && _); exact Ht. }
  unfold handler, handleEndChat.
  destruct (isEndingChat cl); [now left|].
  destruct (negb _); [now left|].
  right. unfold andThen.
  destruct (simulationProgressId cl) as [id|]; [destruct (Js.truthy id)|];
    unfold update, postEnd, setTimerRef, started; cbn;
    destruct (timerRef w) eqn:Ht; cbn; rewrite ?Ht; split; reflexivity.
Qed.

Lemma timerDeps_false prev cur :
  isPaused prev = isPaused cur -> isStarted prev = isStarted cur ->
  timerDeps prev cur = false.
Proof.
  intros H1 H2. unfold timerDeps. rewrite H1, H2, !Bool.eqb_reflx. reflexivity.
Qed.

Lemma timerDeps_true prev cur :
  timerDeps prev cur = false ->
  isPaused prev = isPaused cur /\ isStarted prev = isStarted cur.
Proof.
  unfold timerDeps. destruct (isPaused prev), (isPaused cur),
    (isStarted prev), (isStarted cur); cbn; intros H; try discriminate; auto.
Qed.

Lemma commit_timerRef newData prev w :
  timerRef (commit newData prev w) =
  if timerDeps prev (comp w) then Some (mkInterval (paused w) (started w))
  else timerRef w.
Proof.
  unfold commit, andThen.
  assert (Hr : forall cur, preserves timerRef (resetEffect cur))
    by (intros cur; unfold resetEffect; preserve).
  assert (Hp : forall cur, preserves timerRef (processEffect cur))
    by (intros cur; unfold processEffect, processItem; preserve).
  destruct (processDeps _ _ _); [rewrite Hp|unfold skip at 1];
    (destruct (resetDeps _ _); [rewrite Hr|unfold skip at 1]);
    destruct (timerDeps _ _); reflexivity.
Qed.

Lemma render_timerRef newData prev w :
  timerRef (render newData prev w) =
  if timerDeps prev (comp w) then Some (mkInterval (paused w) (started w))
  else timerRef w.
Proof.
  unfold render. rewrite commit_timerRef.
  rewrite timerDeps_false.
  - apply commit_timerRef.
  - symmetry. apply (commit_preserves paused); intros cur;
      unfold timerEffect, resetEffect, processEffect, processItem; preserve.
  - symmetry. apply (commit_preserves started); intros cur;
      unfold timerEffect, resetEffect, processEffect, processItem; preserve.
Qed.

Lemma step_timerCoherent p w e :
  timerCoherent w = true -> timerCoherent (step p w e) = true.
Proof.
  intros Hw. unfold timerCoherent, step.
  rewrite render_timerRef, render_paused, render_started.
  set (w' := handler p e (comp w) w).
  destruct (timerDeps (comp w) (comp w')) eqn:Hd.
  - cbn. now rewrite !Bool.eqb_reflx.
  - apply timerDeps_true in Hd. destruct Hd as [Hp Hs].
    destruct (handler_timerRef p e (comp w) w) as [Ht|[Ht Hf]]; fold w' in Ht.
    + rewrite Ht. unfold timerCoherent in Hw. unfold paused, started in *.
      now rewrite <- Hp, <- Hs.
    + fold w' in Hf. now rewrite Ht, Hf.
Qed.

Lemma run_timerCoherent p es w :
  timerCoherent w = true -> timerCoherent (run p w es) = true.
Proof.
  revert w. induction es as [|e es IH]; intros w Hw; cbn; [exact Hw|].
  apply IH, step_timerCoherent, Hw.
Qed.

Lemma step_tick_elapsed p w :
  timerCoherent w = true ->
  elapsed (step p w Tick) = elapsed w + (if playing w then 1 else 0).
Proof.
  intros Hw. unfold step. rewrite render_elapsed. cbn [handler].
  unfold tick, timerCoherent, playing in *.
  destruct (timerRef w) as [iv|].
  - apply andb_true_iff in Hw. destruct Hw as [Hp Hs].
    apply Bool.eqb_prop in Hp, Hs. rewrite Hp, Hs, andb_comm.
    destruct (started w && negb (paused w)); cbn; unfold elapsed; lia.
  - apply negb_true_iff in Hw. rewrite Hw. cbn. lia.
Qed.

Lemma step_other_elapsed p w e :
  e <> Tick -> e <> RestartSim -> elapsed (step p w e) = elapsed w.
Proof.
  intros H1 H2. unfold step. rewrite render_elapsed.
  now apply handler_elapsed.
Qed.

Lemma step_paused p w e :
  e <> TogglePause -> paused (step p w e) = paused w.
Proof.
  intros H. unfold step. rewrite render_paused. now apply handler_paused.
Qed.

Lemma elapsed_playingTicks p es w :
  timerCoherent w = true -> ~ In RestartSim es ->
  elapsed (run p w es) = elapsed w + playingTicks p w es.
Proof.
  revert w. induction es as [|e es IH]; intros w Hw Hin; cbn; [lia|].
  fold (run p (step p w e) es).
  rewrite IH; [|now apply step_timerCoherent|intros H; apply Hin; now right].
  assert (He : e <> RestartSim) by (intros ->; apply Hin; now left).
  destruct e; try (rewrite step_other_elapsed by congruence; lia).
  rewrite step_tick_elapsed by exact Hw. lia.
Qed.

Lemma paused_playingTicks p es w :
  paused w = true -> ~ In TogglePause es -> playingTicks p w es = 0.
Proof.
  revert w. induction es as [|e es IH]; intros w Hw Hin; cbn; [reflexivity|].
  assert (He : e <> TogglePause) by (intros ->; apply Hin; now left).
  rewrite IH; [|now rewrite step_paused|intros H; apply Hin; now right].
  unfold playing. rewrite Hw, andb_false_r. now destruct e.
Qed.

(** C4: a clock tick adds exactly 1 to the elapsed seconds when the
    simulation is started and not paused and adds nothing otherwise, no
    other event but the restart changes them, so the elapsed seconds are
    the number of ticks received while playing; between a pause and the
    next toggle they do not move. *)
Theorem elapsed_counts_playing_ticks (p : Props) (w : World) (es : list Event)
  (Hw : timerCoherent w = true) (Hes : ~ In RestartSim es) :
  elapsed (step p w Tick) = elapsed w + (if started w && negb (paused w) then 1 else 0)
  /\ (forall e, e <> Tick -> e <> RestartSim -> elapsed (step p w e) = elapsed w)
  /\ elapsed (run p w es) = elapsed w + playingTicks p w es
  /\ (paused w = true -> ~ In TogglePause es -> elapsed (run p w es) = elapsed w).
Proof.
  repeat split.
  - now apply step_tick_elapsed.
  - intros e. apply step_other_elapsed.
  - now apply elapsed_playingTicks.
  - intros Hp Ht. rewrite elapsed_playingTicks by assumption.
    rewrite paused_playingTicks by assumption. lia.
Qed.

(** ** Rendering settles *)

Lemma resetDeps_same c : resetDeps c c = false.
Proof. unfold resetDeps. now rewrite !Z.eqb_refl. Qed.

Lemma processDeps_same c : processDeps false c c = false.
Proof. unfold processDeps. now rewrite resetDeps_same, !Bool.eqb_reflx. Qed.

(** A render in which no dependency has changed runs no effect. *)
Lemma commit_same w : commit false (comp w) w = w.
Proof.
  unfold commit, andThen.
  now rewrite timerDeps_false, resetDeps_same, processDeps_same.
Qed.

Ltac commit_preserve :=
  apply commit_preserves; intros ?;
  unfold timerEffect, resetEffect, processEffect, processItem; preserve.

Lemma commit_processing newData prev w :
  processing (commit newData prev w) = processing w
  \/ processing (commit newData prev w) = true.
Proof.
  unfold commit, andThen.
  assert (Ht : forall cur, preserves processing (timerEffect cur))
    by (intros cur w'; reflexivity).
  assert (Hr : forall cur, preserves processing (resetEffect cur))
    by (intros cur; unfold resetEffect; preserve).
  set (cur := comp w).
  set (w1 := (if timerDeps prev cur then timerEffect cur else skip) w).
  set (w2 := (if resetDeps prev cur then resetEffect cur else skip) w1).
  assert (H2 : processing w2 = processing w).
  { unfold w2, w1. destruct (resetDeps _ _), (timerDeps _ _);
      unfold skip; now rewrite ?Hr, ?Ht. }
  rewrite <- H2.
  destruct (processDeps _ _ _); [|now left].
  unfold processEffect. destruct (currentItem cur); [|now left].
  destruct (isProcessing cur) eqn:Hc; [now left|].
  destruct (_ || _); [now left|].
  assert (Hf : processing w = false) by exact Hc.
  unfold processItem.
  destruct (_ =? _)%string; [destruct (isCustomerRole _)|];
    [now right|left; now rewrite H2, Hf|].
  destruct (_ =? _)%string; [|left; now rewrite H2, Hf].
  destruct (positiveTimeout _); [destruct (negb _)|];
    first [now right | left; now rewrite H2, Hf].
Qed.

(** The render caused by the effects' own updates changes nothing: the
    only dependency they can have changed is [isProcessing], to [true],
    and then the processing effect returns at once. *)
Lemma commit_settles newData prev w :
  commit false (comp w) (commit newData prev w) = commit newData prev w.
Proof.
  set (w1 := commit newData prev w).
  assert (Hp : paused w1 = paused w) by (unfold w1; commit_preserve).
  assert (Hs : started w1 = started w) by (unfold w1; commit_preserve).
  assert (Hi : itemIndex w1 = itemIndex w) by (unfold w1; commit_preserve).
  assert (Hl : slideIndex w1 = slideIndex w) by (unfold w1; commit_preserve).
  assert (Hm : loaded w1 = loaded w) by (unfold w1; commit_preserve).
  unfold commit at 1, andThen.
  rewrite timerDeps_false by (symmetry; assumption).
  unfold resetDeps, processDeps, resetDeps.
  unfold paused, started, itemIndex, slideIndex, loaded in *.
  rewrite <- Hi, <- Hl, <- Hp, <- Hs, <- Hm, !Z.eqb_refl, !Bool.eqb_reflx.
  cbn [negb orb].
  destruct (commit_processing newData prev w) as [H|H]; fold w1 in H;
    unfold processing in H.
  - rewrite H, Bool.eqb_reflx. reflexivity.
  - destruct (negb _); [|reflexivity].
    unfold processEffect. rewrite H.
    destruct (currentItem _); reflexivity.
Qed.

Lemma render_commit newData prev w :
  render newData prev w = commit newData prev w.
Proof. unfold render. apply commit_settles. Qed.

Lemma step_commit p w e :
  step p w e = commit (storesData e w) (comp w) (handler p e (comp w) w).
Proof. unfold step. apply render_commit. Qed.

(** A handler that leaves the render state alone causes no effect. *)
Lemma step_unchanged p w e :
  handler p e (comp w) w = w -> storesData e w = false -> step p w e = w.
Proof.
  intros H Hd. rewrite step_commit, H, Hd. apply commit_same.
Qed.

(** ** Advancing *)

(** Called while the position is still the one of the render [cl] it
    closes over, [moveToNextItem] moves to the next position. *)
Lemma moveToNextItem_next cl w :
  position w = (currentSlideIndex cl, currentSequenceIndex cl) ->
  position (moveToNextItem cl w) = nextPosition cl.
Proof.
  intros Hw. unfold position in Hw. injection Hw as Hs Hi.
  unfold moveToNextItem, nextPosition.
  destruct (currentSequenceIndex cl <? _) eqn:H1;
    [|destruct (currentSlideIndex cl <? _) eqn:H2].
  - assert (H : (currentSequenceIndex cl + 1
                 <? Js.length (currentSequence cl)) = true)
      by (apply Z.ltb_lt; apply Z.ltb_lt in H1; lia).
    rewrite H. unfold position, update. cbn. now rewrite Hs, Hi.
  - assert (H : (currentSequenceIndex cl + 1
                 <? Js.length (currentSequence cl)) = false)
      by (apply Z.ltb_ge; apply Z.ltb_ge in H1; lia).
    assert (H' : (currentSlideIndex cl + 1
                  <? Js.length (slidesOf cl)) = true)
      by (apply Z.ltb_lt; apply Z.ltb_lt in H2; lia).
    rewrite H, H'. unfold position, andThen, update. cbn. now rewrite Hs.
  - assert (H : (currentSequenceIndex cl + 1
                 <? Js.length (currentSequence cl)) = false)
      by (apply Z.ltb_ge; apply Z.ltb_ge in H1; lia).
    assert (H' : (currentSlideIndex cl + 1
                  <? Js.length (slidesOf cl)) = false)
      by (apply Z.ltb_ge; apply Z.ltb_ge in H2; lia).
    rewrite H, H'. unfold position, update. cbn. now rewrite Hs, Hi.
Qed.

Lemma runCallback_position cb ms cl w :
  advancing cb = true ->
  position (runCallback (mkTimeout cb ms cl) w) = position (moveToNextItem cl w).
Proof.
  destruct cb; cbn; try discriminate; intros _; reflexivity.
Qed.

(** Fired while the position is still the one of its closure, an
    advancing timeout moves to the next position. *)
Lemma runCallback_next cb ms w0 w :
  advancing cb = true -> position w = position w0 ->
  position (runCallback (mkTimeout cb ms (comp w0)) w) = nextPosition (comp w0).
Proof.
  intros Ha Hw. rewrite runCallback_position by assumption.
  now apply moveToNextItem_next.
Qed.

(** ** What a step does to the fields the effects leave alone *)

Lemma step_scores p w e :
  scores (comp (step p w e)) = scores (comp (handler p e (comp w) w)).
Proof. apply (render_scores _ _ _). Qed.

Lemma step_showCompletionScreen p w e :
  showCompletionScreen (comp (step p w e))
  = showCompletionScreen (comp (handler p e (comp w) w)).
Proof. apply (render_showCompletionScreen _ _ _). Qed.

Lemma step_isEndingChat p w e :
  isEndingChat (comp (step p w e)) = isEndingChat (comp (handler p e (comp w) w)).
Proof. apply (render_isEndingChat _ _ _). Qed.

Lemma step_simulationProgressId p w e :
  simulationProgressId (comp (step p w e))
  = simulationProgressId (comp (handler p e (comp w) w)).
Proof. apply (render_simulationProgressId _ _ _). Qed.

Lemma step_endCalls p w e :
  endCalls (step p w e) = endCalls (handler p e (comp w) w).
Proof. apply render_endCalls. Qed.

Lemma step_endPending p w e :
  endPending (step p w e) = endPending (handler p e (comp w) w).
Proof. apply render_endPending. Qed.

Lemma step_started p w e :
  started (step p w e) = started (handler p e (comp w) w).
Proof. apply render_started. Qed.

Lemma step_pausedH p w e :
  paused (step p w e) = paused (handler p e (comp w) w).
Proof. apply render_paused. Qed.

Lemma step_elapsed p w e :
  elapsed (step p w e) = elapsed (handler p e (comp w) w).
Proof. apply render_elapsed. Qed.

Lemma step_timerRef p w e :
  timerRef (step p w e) =
  let w' := handler p e (comp w) w in
  if timerDeps (comp w) (comp w') then Some (mkInterval (paused w') (started w'))
  else timerRef w'.
Proof. apply render_timerRef. Qed.

Lemma clockStopped_tick p w : clockStopped w = true -> step p w Tick = w.
Proof.
  intros H. apply step_unchanged; [|reflexivity].
  cbn [handler]. unfold tick, clockStopped in *.
  destruct (timerRef w) as [iv|]; [|reflexivity].
  apply negb_true_iff in H. now rewrite H, andb_false_r.
Qed.

Lemma clockStopped_ticks p w n :
  clockStopped w = true -> run p w (repeat Tick n) = w.
Proof.
  intros H. induction n as [|n IH]; cbn; [reflexivity|].
  now rewrite clockStopped_tick.
Qed.

(** ** Ending the session *)

(** [handleEndChat] past its two guards. *)
Lemma handleEndChat_proceeds p w :
  Js.truthy (userId p) = true -> isEndingChat (comp w) = false ->
  handleEndChat p (comp w) w =
  (update (setIsEndingChat true) ;;
   (fun w => match timerRef w with Some _ => setTimerRef None w | None => w end) ;;
   update (setIsStarted false) ;;
   match simulationProgressId (comp w) with
   | Some id =>
       if Js.truthy id then
         postEnd (mkApiParams (userId p) (simulationId p) id) (comp w)
       else update (setIsEndingChat false)
   | None => update (setIsEndingChat false)
   end) w.
Proof. intros Hu He. unfold handleEndChat. now rewrite He, Hu. Qed.

Lemma handleEndChat_clears_timer p w :
  Js.truthy (userId p) = true -> isEndingChat (comp w) = false ->
  timerRef (handleEndChat p (comp w) w) = None
  /\ started (handleEndChat p (comp w) w) = false.
Proof.
  intros Hu He. rewrite handleEndChat_proceeds by assumption.
  unfold andThen.
  destruct (simulationProgressId (comp w)) as [id|]; [destruct (Js.truthy id)|];
    unfold update, postEnd, setTimerRef, started; cbn;
    destruct (timerRef w) eqn:Ht; cbn; rewrite ?Ht; split; reflexivity.
Qed.

Lemma step_EndChat_clockStopped p w :
  Js.truthy (userId p) = true -> isEndingChat (comp w) = false ->
  clockStopped (step p w EndChat) = true /\ started (step p w EndChat) = false.
Proof.
  intros Hu He.
  destruct (handleEndChat_clears_timer p w Hu He) as [Ht Hs].
  unfold clockStopped. rewrite step_timerRef, step_started. cbn [handler].
  cbv zeta. rewrite Ht, Hs. split; [|reflexivity].
  now destruct (timerDeps _ _).
Qed.

Lemma handleEndChat_posts p w id :
  Js.truthy (userId p) = true -> isEndingChat (comp w) = false ->
  simulationProgressId (comp w) = Some id -> Js.truthy id = true ->
  let w' := handleEndChat p (comp w) w in
  endCalls w' = endCalls w ++ [mkApiParams (userId p) (simulationId p) id]
  /\ endPending w' = endPending w ++ [comp w]
  /\ isEndingChat (comp w') = true
  /\ scores (comp w') = scores (comp w)
  /\ showCompletionScreen (comp w') = showCompletionScreen (comp w)
  /\ simulationProgressId (comp w') = Some id
  /\ paused w' = paused w /\ position w' = position w /\ elapsed w' = elapsed w.
Proof.
  intros Hu He Hid Hid'. cbv zeta.
  rewrite handleEndChat_proceeds by assumption. rewrite Hid, Hid'.
  unfold andThen, update, postEnd, setTimerRef, paused, position, elapsed.
  destruct (timerRef w); cbn; rewrite ?Hid; repeat split; reflexivity.
Qed.

Lemma handleEndChat_gives_up p w :
  Js.truthy (userId p) = true -> isEndingChat (comp w) = false ->
  Js.truthy_opt (simulationProgressId (comp w)) = false ->
  let w' := handleEndChat p (comp w) w in
  endCalls w' = endCalls w
  /\ endPending w' = endPending w
  /\ isEndingChat (comp w') = false
  /\ scores (comp w') = scores (comp w)
  /\ showCompletionScreen (comp w') = showCompletionScreen (comp w).
Proof.
  intros Hu He Hid. cbv zeta.
  rewrite handleEndChat_proceeds by assumption.
  unfold andThen, update, postEnd, setTimerRef.
  destruct (simulationProgressId (comp w)) as [id|]; cbn in Hid;
    [rewrite Hid|]; destruct (timerRef w); cbn; repeat split; reflexivity.
Qed.

(** C8: with one end call outstanding a second call changes nothing, so
    there is exactly one request; its response stores the one result,
    and no later response can replace it. *)
Theorem end_twice_one_call (p : Props) (w : World) (id : string)
  (Hu : Js.truthy (userId p) = true)
  (He : isEndingChat (comp w) = false)
  (Hid : simulationProgressId (comp w) = Some id)
  (Hid' : Js.truthy id = true)
  (Hq : endPending w = []) :
  let w1 := step p w EndChat in
  let w2 := step p w1 EndChat in
  endCalls w1 = endCalls w ++ [mkApiParams (userId p) (simulationId p) id]
  /\ endPending w1 = [comp w]
  /\ w2 = w1
  /\ forall sc dur,
       let w3 := step p w2 (EndResponse (EndOk (Some sc) dur)) in
       scores (comp w3) = Some sc
       /\ showCompletionScreen (comp w3) = true
       /\ endCalls w3 = endCalls w1
       /\ endPending w3 = []
       /\ forall r, scores (comp (step p w3 (EndResponse r))) = Some sc.
Proof.
  cbv zeta.
  destruct (handleEndChat_posts p w id Hu He Hid Hid')
    as (Hc & Hp & Hg & _).
  assert (H1 : endCalls (step p w EndChat)
               = endCalls w ++ [mkApiParams (userId p) (simulationId p) id])
    by (now rewrite step_endCalls).
  assert (H2 : endPending (step p w EndChat) = [comp w])
    by (rewrite step_endPending; cbn [handler]; now rewrite Hp, Hq).
  assert (H3 : step p (step p w EndChat) EndChat = step p w EndChat).
  { apply step_unchanged; [|reflexivity]. cbn [handler]. unfold handleEndChat.
    rewrite step_isEndingChat. cbn [handler]. now rewrite Hg. }
  split; [exact H1|]. split; [exact H2|]. split; [exact H3|].
  intros sc dur. rewrite H3.
  set (w3 := step p (step p w EndChat) (EndResponse (EndOk (Some sc) dur))).
  assert (H4 : scores (comp w3) = Some sc).
  { unfold w3. rewrite step_scores. cbn [handler]. unfold handleEndResponse.
    now rewrite H2. }
  assert (H5 : endPending w3 = []).
  { unfold w3. rewrite step_endPending. cbn [handler]. unfold handleEndResponse.
    now rewrite H2. }
  split; [exact H4|]. split; [|split; [|split; [exact H5|]]].
  - unfold w3. rewrite step_showCompletionScreen. cbn [handler].
    unfold handleEndResponse. now rewrite H2.
  - unfold w3. rewrite step_endCalls. cbn [handler].
    unfold handleEndResponse. now rewrite H2.
  - intros r. rewrite step_scores. cbn [handler]. unfold handleEndResponse.
    now rewrite H5.
Qed.

Lemma end_twice_one_call_witness :
  let w := Demo.playingForm in
  step Demo.props (step Demo.props w EndChat) EndChat = step Demo.props w EndChat
  /\ List.length (endCalls (step Demo.props w EndChat)) = 1%nat.
Proof.
  cbv zeta.
  destruct (end_twice_one_call Demo.props Demo.playingForm "progress-1"
              eq_refl eq_refl eq_refl eq_refl eq_refl) as (H1 & _ & H3 & _).
  split; [exact H3 | rewrite H1; reflexivity].
Defined.

(** C10: ending with no progress identifier posts nothing and shows no
    result, but the interval is already cleared and the started flag
    already false: the clock no longer counts. *)
Theorem end_without_progress_id (p : Props) (w : World)
  (Hu : Js.truthy (userId p) = true)
  (He : isEndingChat (comp w) = false)
  (Hid : Js.truthy_opt (simulationProgressId (comp w)) = false) :
  let w1 := step p w EndChat in
  endCalls w1 = endCalls w
  /\ endPending w1 = endPending w
  /\ showCompletionScreen (comp w1) = showCompletionScreen (comp w)
  /\ scores (comp w1) = scores (comp w)
  /\ isEndingChat (comp w1) = false
  /\ timerRef (handleEndChat p (comp w) w) = None
  /\ started w1 = false
  /\ forall n, elapsed (run p w1 (repeat Tick n)) = elapsed w.
Proof.
  cbv zeta.
  destruct (handleEndChat_gives_up p w Hu He Hid) as (H1 & H2 & H3 & H4 & H5).
  destruct (handleEndChat_clears_timer p w Hu He) as [Ht Hs].
  destruct (step_EndChat_clockStopped p w Hu He) as [Hc Hs'].
  rewrite step_endCalls, step_endPending, step_showCompletionScreen,
    step_scores, step_isEndingChat. cbn [handler].
  repeat split; try assumption.
  intros n. rewrite clockStopped_ticks by assumption.
  rewrite step_elapsed. cbn [handler].
  rewrite handleEndChat_proceeds by assumption.
  unfold andThen, update, postEnd, setTimerRef, elapsed.
  destruct (simulationProgressId (comp w)) as [id|]; [destruct (Js.truthy id)|];
    destruct (timerRef w); reflexivity.
Qed.

Lemma end_without_progress_id_witness :
  let w := Demo.startedWithoutData in
  started w = true
  /\ endCalls (step Demo.props w EndChat) = []
  /\ started (step Demo.props w EndChat) = false.
Proof.
  cbv zeta.
  destruct (end_without_progress_id Demo.props Demo.startedWithoutData
              eq_refl eq_refl eq_refl) as (H1 & _ & _ & _ & _ & _ & H7 & _).
  split; [reflexivity | split; [exact H1 | exact H7]].
Defined.

(** C9 as stated does not hold: when the end call fails on a playing
    session the session is left not started, which is not the state
    before the call. *)
Lemma end_failure_not_atomic :
  ~ (forall p w id,
        Js.truthy (userId p) = true ->
        isEndingChat (comp w) = false ->
        simulationProgressId (comp w) = Some id ->
        Js.truthy id = true ->
        endPending w = [] ->
        timerCoherent w = true ->
        let w2 := run p w [EndChat; EndResponse EndFail] in
        started w2 = started w
        /\ elapsed (step p w2 Tick) = elapsed w2 + (if playing w then 1 else 0)).
Proof.
  intros H.
  destruct (H Demo.props Demo.playingForm "progress-1"
              eq_refl eq_refl eq_refl eq_refl eq_refl eq_refl) as [Hs _].
  vm_compute in Hs. discriminate Hs.
Qed.

(** C9 (amended): after a failed end call the completion screen flag
    and the stored scores are as before the call (the session is not
    made completed), the guard is released and the progress identifier
    kept, so that calling the end handler again posts the request
    again; pause flag, position and elapsed seconds are as before the
    call.  The started flag, however, is false and the clock no longer
    counts: both were changed before the request was made and the
    failure does not restore them. *)
Theorem end_failure_state (p : Props) (w : World) (id : string)
  (Hu : Js.truthy (userId p) = true)
  (He : isEndingChat (comp w) = false)
  (Hid : simulationProgressId (comp w) = Some id)
  (Hid' : Js.truthy id = true)
  (Hq : endPending w = []) :
  let params := mkApiParams (userId p) (simulationId p) id in
  let w2 := run p w [EndChat; EndResponse EndFail] in
  showCompletionScreen (comp w2) = showCompletionScreen (comp w)
  /\ scores (comp w2) = scores (comp w)
  /\ isEndingChat (comp w2) = false
  /\ endCalls w2 = endCalls w ++ [params]
  /\ endCalls (step p w2 EndChat) = endCalls w ++ [params; params]
  /\ paused w2 = paused w
  /\ position w2 = position w
  /\ elapsed w2 = elapsed w
  /\ started w2 = false
  /\ forall n, elapsed (run p w2 (repeat Tick n)) = elapsed w.
Proof.
  cbv zeta. cbn [run fold_left].
  destruct (handleEndChat_posts p w id Hu He Hid Hid')
    as (Hc & Hp & Hg & Hsc & Hsh & Hpi & Hpa & Hpo & Hel).
  destruct (step_EndChat_clockStopped p w Hu He) as [Hst Hs].
  set (w1 := step p w EndChat) in *.
  assert (H1 : endPending w1 = [comp w])
    by (unfold w1; rewrite step_endPending; cbn [handler]; now rewrite Hp, Hq).
  assert (Hh : handler p (EndResponse EndFail) (comp w1) w1
               = (setEndPending [] ;; skip ;; update (setIsEndingChat false)) w1)
    by (cbn [handler]; unfold handleEndResponse; now rewrite H1).
  set (w2 := step p w1 (EndResponse EndFail)).
  assert (Hg2 : isEndingChat (comp w2) = false)
    by (unfold w2; rewrite step_isEndingChat, Hh; reflexivity).
  assert (Hc2 : endCalls w2 = endCalls w
                  ++ [mkApiParams (userId p) (simulationId p) id]).
  { unfold w2. rewrite step_endCalls, Hh.
    change (endCalls w1 = endCalls w ++ [mkApiParams (userId p) (simulationId p) id]). unfold w1. now rewrite step_endCalls. }
  assert (Hi2 : simulationProgressId (comp w2) = Some id).
  { unfold w2. rewrite step_simulationProgressId, Hh.
    change (simulationProgressId (comp w1) = Some id). unfold w1. now rewrite step_simulationProgressId. }
  assert (He2 : elapsed w2 = elapsed w).
  { unfold w2. rewrite step_elapsed, Hh.
    change (elapsed w1 = elapsed w). unfold w1. now rewrite step_elapsed. }
  assert (Hs2 : started w2 = false).
  { unfold w2. rewrite step_started, Hh. exact Hs. }
  assert (Ht2 : clockStopped w2 = true).
  { unfold clockStopped, w2. rewrite step_timerRef, Hh. cbv zeta.
    rewrite timerDeps_false by reflexivity. exact Hst. }
  repeat match goal with |- _ /\ _ => split end; try assumption.
  - unfold w2. rewrite step_showCompletionScreen, Hh.
    change (showCompletionScreen (comp w1) = showCompletionScreen (comp w)). unfold w1. now rewrite step_showCompletionScreen.
  - unfold w2. rewrite step_scores, Hh.
    change (scores (comp w1) = scores (comp w)). unfold w1. now rewrite step_scores.
  - rewrite step_endCalls. cbn [handler].
    destruct (handleEndChat_posts p w2 id Hu Hg2 Hi2 Hid') as (Hc3 & _).
    rewrite Hc3, Hc2, <- app_assoc. reflexivity.
  - unfold w2. rewrite step_pausedH, Hh.
    change (paused w1 = paused w). unfold w1. now rewrite step_pausedH.
  - unfold w2. rewrite step_position, Hh.
    change (position w1 = position w). unfold w1. now rewrite step_position.
  - intros n. now rewrite clockStopped_ticks.
Qed.

Lemma end_failure_state_witness :
  let w2 := run Demo.props Demo.playingForm [EndChat; EndResponse EndFail] in
  started Demo.playingForm = true
  /\ started w2 = false
  /\ showCompletionScreen (comp w2) = false.
Proof.
  cbv zeta.
  destruct (end_failure_state Demo.props Demo.playingForm "progress-1"
              eq_refl eq_refl eq_refl eq_refl eq_refl)
    as (H1 & _ & _ & _ & _ & _ & _ & _ & H9 & _).
  split; [reflexivity | split; [exact H9 | rewrite H1; reflexivity]].
Defined.

(** ** Two clicks on a checkbox *)

(** C3, on the code: on the slide [checkbox; button; button] one click
    on the checkbox followed by its timeout moves to item 1; a second
    click before the timeout is not ignored: it schedules a second
    timeout, and after both have fired the position is item 2. *)
Theorem checkbox_second_click_advances_again :
  let p := Demo.props in
  let w := Demo.playingForm in
  option_map hotspotTypeOf (currentItem (comp w)) = Some "checkbox"
  /\ position w = (0, 0)
  /\ position (run p w [HotspotClick; TimeoutFires 0]) = (0, 1)
  /\ map callback (timeouts (run p w [HotspotClick; HotspotClick]))
     = [CheckboxAdvance; CheckboxAdvance]
  /\ position (run p w [HotspotClick; HotspotClick; TimeoutFires 0; TimeoutFires 0])
     = (0, 2).
Proof. vm_compute. repeat split; reflexivity. Qed.

(** ** Entering an item *)

(** A render in which no dependency of an effect has changed. *)
Lemma commit_idle prev w :
  timerDeps prev (comp w) = false -> processDeps false prev (comp w) = false ->
  commit false prev w = w.
Proof.
  intros Ht Hp. unfold commit, andThen. rewrite Ht, Hp.
  unfold processDeps in Hp. apply orb_false_iff in Hp. destruct Hp as [Hp _].
  apply orb_false_iff in Hp. destruct Hp as [Hp _].
  apply orb_false_iff in Hp. destruct Hp as [Hp _].
  apply orb_false_iff in Hp. destruct Hp as [Hp _].
  apply orb_false_iff in Hp. destruct Hp as [_ Hp].
  now rewrite Hp.
Qed.

Lemma step_idle p w e :
  storesData e w = false ->
  timerDeps (comp w) (comp (handler p e (comp w) w)) = false ->
  processDeps false (comp w) (comp (handler p e (comp w) w)) = false ->
  step p w e = handler p e (comp w) w.
Proof.
  intros Hd Ht Hp. rewrite step_commit, Hd. now apply commit_idle.
Qed.

Ltac deps_unchanged :=
  unfold timerDeps, processDeps, resetDeps; cbn;
  rewrite ?Z.eqb_refl, ?Bool.eqb_reflx; reflexivity.


Lemma settled_timeouts prev w : timeouts (settled prev w) = timeouts w.
Proof.
  unfold settled, andThen.
  assert (Hr : forall cur, preserves timeouts (resetEffect cur))
    by (intros cur; unfold resetEffect; preserve).
  destruct (resetDeps _ _); [rewrite Hr|unfold skip at 1];
    destruct (timerDeps _ _); reflexivity.
Qed.



Lemma render_data newData prev : preserves data (render newData prev).
Proof. effects_preserve. Qed.

Lemma currentItem_ext c c' :
  simulationData c' = simulationData c ->
  currentSlideIndex c' = currentSlideIndex c ->
  currentSequenceIndex c' = currentSequenceIndex c ->
  currentItem c' = currentItem c.
Proof.
  intros Hd Hs Hi.
  unfold currentItem, currentSequence, currentSlide, slidesOf.
  now rewrite Hd, Hs, Hi.
Qed.

(** ** Renders that process nothing *)

Lemma commit_split newData prev w :
  commit newData prev w =
  (if processDeps newData prev (comp w) then processEffect (comp w) else skip)
    (settled prev w).
Proof. reflexivity. Qed.

Lemma processEffect_blocked cur w :
  blocked cur = true -> processEffect cur w = w.
Proof.
  intros H. unfold processEffect, blocked in *.
  destruct (currentItem cur); [|reflexivity]. now rewrite H.
Qed.

Lemma commit_blocked newData prev w :
  blocked (comp w) = true -> commit newData prev w = settled prev w.
Proof.
  intros H. rewrite commit_split.
  destruct (processDeps _ _ _); [now apply processEffect_blocked | reflexivity].
Qed.

Lemma step_blocked_timeouts p w e :
  blocked (comp (handler p e (comp w) w)) = true ->
  timeouts (step p w e) = timeouts (handler p e (comp w) w).
Proof.
  intros H. rewrite step_commit, commit_blocked by assumption.
  apply settled_timeouts.
Qed.

Lemma step_data p w e : data (step p w e) = data (handler p e (comp w) w).
Proof. apply render_data. Qed.

Lemma step_currentItem p w e :
  currentItem (comp (step p w e)) = currentItem (comp (handler p e (comp w) w)).
Proof.
  apply currentItem_ext.
  - apply (step_data p w e).
  - apply (render_slideIndex _ _ _).
  - apply (render_itemIndex _ _ _).
Qed.

Lemma resetDeps_position prev w :
  position w <> (currentSlideIndex prev, currentSequenceIndex prev) ->
  resetDeps prev (comp w) = true.
Proof.
  intros H. unfold resetDeps, position in *.
  destruct (currentSequenceIndex prev =? currentSequenceIndex (comp w)) eqn:E1;
    [|reflexivity].
  destruct (currentSlideIndex prev =? currentSlideIndex (comp w)) eqn:E2;
    [|reflexivity].
  apply Z.eqb_eq in E1, E2. exfalso. apply H. now rewrite E1, E2.
Qed.

(** ** Hotspots with a timeout *)










(** ** Messages *)











Lemma step_currentMessage_blocked p w e :
  blocked (comp (handler p e (comp w) w)) = true ->
  currentMessage (comp (step p w e))
  = currentMessage (comp (handler p e (comp w) w)).
Proof.
  intros H. rewrite step_commit, commit_blocked by assumption.
  unfold settled, andThen.
  assert (Hr : forall cur, preserves (fun x => currentMessage (comp x))
                             (resetEffect cur))
    by (intros cur; unfold resetEffect; preserve).
  destruct (resetDeps _ _); [rewrite Hr|unfold skip at 1];
    destruct (timerDeps _ _); reflexivity.
Qed.




(** ** Dropdowns *)

(** C7: a click on a dropdown hotspot toggles its open state (when the
    click guard lets it through, else nothing changes) and neither
    moves the position nor schedules anything; a selection records the
    option, closes the dropdown, leaves the position where it is, and
    schedules the advance (500 ms) exactly when [advanceOnSelect] is
    true. *)
Theorem dropdown_policy (p : Props) (w : World) (it : SequenceItem)
  (Hit : currentItem (comp w) = Some it)
  (Hty : item_type it = "hotspot")
  (Hkind : hotspotTypeOf it = "dropdown") :
  (let w1 := step p w HotspotClick in
   position w1 = position w
   /\ timeouts w1 = timeouts w
   /\ dropdownOpen (comp w1)
      = if started w && negb (processing w) && negb (paused w)
        then negb (dropdownOpen (comp w)) else dropdownOpen (comp w))
  /\ (forall (option : string) (st : Settings) (b : bool),
      settings it = Some st -> advanceOnSelect st = Some b ->
      let w1 := step p w (DropdownSelect option) in
      let advance := mkTimeout SelectAdvance 500 (comp w) in
      dropdownValue (comp w1) = option
      /\ dropdownOpen (comp w1) = false
      /\ position w1 = position w
      /\ timeouts w1 = timeouts w ++ (if b then [advance] else [])
      /\ forall w', position w' = position w ->
                    position (runCallback advance w') = nextPosition (comp w))
  /\ (forall (option : string),
      settings it = None
      \/ (exists st, settings it = Some st /\ advanceOnSelect st = None) ->
      let w1 := step p w (DropdownSelect option) in
      dropdownValue (comp w1) = option
      /\ position w1 = position w
      /\ timeouts w1 = timeouts w).
Proof.
  split; [|split].
  - cbv zeta.
    assert (Hh : handler p HotspotClick (comp w) w =
                 if started w && negb (processing w) && negb (paused w)
                 then update (setDropdownOpen (negb (dropdownOpen (comp w)))) w
                 else w).
    { cbn [handler]. unfold handleHotspotClick. rewrite Hit, Hty, Hkind.
      unfold started, processing, paused.
      destruct (isStarted _), (isProcessing _), (isPaused _); reflexivity. }
    destruct (started w && negb (processing w) && negb (paused w)).
    + rewrite step_idle; rewrite ?Hh; try reflexivity; try deps_unchanged.
      repeat split.
    + rewrite step_unchanged by (assumption || reflexivity). repeat split.
  - intros option st b Hst Hb. cbv zeta.
    assert (Hh : handler p (DropdownSelect option) (comp w) w =
                 (update (setDropdownValue option) ;;
                  update (setDropdownOpen false) ;;
                  if b then setTimeout SelectAdvance 500 (comp w) else skip) w).
    { cbn [handler]. unfold handleDropdownSelect, advanceOnSelectOf.
      now rewrite Hit, Hst, Hb. }
    rewrite step_idle; rewrite ?Hh; try reflexivity;
      try (destruct b; deps_unchanged).
    destruct b; repeat split;
      try (intros w' Hw'; now apply runCallback_next).
    unfold andThen, update, skip. cbn. now rewrite app_nil_r.
  - intros option Hn. cbv zeta.
    assert (Hh : handler p (DropdownSelect option) (comp w) w =
                 (update (setDropdownValue option) ;;
                  update (setDropdownOpen false) ;; skip) w).
    { cbn [handler]. unfold handleDropdownSelect, advanceOnSelectOf.
      rewrite Hit. destruct Hn as [Hn|(st & Hst & Hn)].
      - now rewrite Hn.
      - now rewrite Hst, Hn. }
    rewrite step_idle; rewrite ?Hh; try reflexivity; try deps_unchanged.
    repeat split.
Qed.

Lemma dropdown_policy_witness :
  let w1 := run Demo.props Menu.shown [HotspotClick; DropdownSelect "A"] in
  dropdownValue (comp w1) = "A" /\ position w1 = (0, 0) /\ timeouts w1 = [].
Proof.
  cbv zeta.
  set (w := step Demo.props Menu.shown HotspotClick).
  destruct (dropdown_policy Demo.props w Menu.item eq_refl eq_refl eq_refl)
    as (_ & H & _).
  destruct (H "A" (mkSettings None (Some false)) false eq_refl eq_refl)
    as (H1 & _ & H3 & H4 & _).
  cbn [run fold_left]. fold w.
  split; [exact H1 | split; [rewrite H3; reflexivity | rewrite H4; reflexivity]].
Defined.

(** ** Runs of the examples *)

Lemma position_monotone_witness :
  lex_le (position Demo.playingForm)
    (position (run Demo.props Demo.playingForm
                 [HotspotClick; Tick; TimeoutFires 0; HotspotClick])).
Proof.
  destruct position_monotone as (_ & H & _).
  apply H. cbn. intuition discriminate.
Defined.

Lemma elapsed_counts_playing_ticks_witness :
  let es := [Start; Tick; Tick; TogglePause; Tick; Tick; Tick; TogglePause; Tick] in
  elapsed (run Demo.props initialWorld es) = 3.
Proof.
  cbv zeta.
  destruct (elapsed_counts_playing_ticks Demo.props initialWorld
              [Start; Tick; Tick; TogglePause; Tick; Tick; Tick; TogglePause; Tick]
              eq_refl) as (_ & _ & H & _).
  - cbn. intuition discriminate.
  - rewrite H. reflexivity.
Defined.

(** * Further properties of the component *)

(** ** The displayed time *)

Lemma allDigits_string_of_uint d :
  allDigits (NilEmpty.string_of_uint d) = true.
Proof. induction d; cbn; auto. Qed.

Lemma toString_nonneg n :
  0 <= n ->
  exists d, toString n = NilEmpty.string_of_uint d /\ Z.of_uint d = n.
Proof.
  intros Hn. unfold toString. destruct n as [|q|q]; [| |lia].
  - exists (Decimal.D0 Decimal.Nil). split; reflexivity.
  - exists (Pos.to_uint q). split.
    + cbn. destruct (Pos.to_uint q) eqn:E; try reflexivity.
      exfalso. pose proof (DecimalPos.Unsigned.of_to q) as H.
      rewrite E in H. discriminate H.
    + apply (DecimalZ.of_to (Z.pos q)).
Qed.

Lemma readNat_digits d :
  readNat (NilEmpty.string_of_uint d) = Some (Z.of_uint d).
Proof. unfold readNat. now rewrite NilEmpty.usu. Qed.

Lemma readNat_zeros k d :
  readNat (replicate k "0" ++ NilEmpty.string_of_uint d) = Some (Z.of_uint d).
Proof.
  induction k as [|k IH]; cbn [replicate String.append].
  - apply readNat_digits.
  - unfold readNat in *. cbn [NilEmpty.uint_of_string].
    destruct (NilEmpty.uint_of_string _) as [d'|]; [|discriminate IH].
    cbn in *. injection IH as IH. f_equal. rewrite <- IH. reflexivity.
Qed.

Lemma allDigits_zeros k s :
  allDigits s = true -> allDigits (replicate k "0" ++ s) = true.
Proof. intros H. induction k; cbn; auto. Qed.

Lemma splitAt_digits sep x y :
  isDigit sep = false -> allDigits x = true ->
  splitAt sep (x ++ String sep y) = Some (x, y).
Proof.
  intros Hs. induction x as [|a x IH]; cbn.
  - now rewrite Ascii.eqb_refl.
  - intros H. apply andb_true_iff in H. destruct H as [Ha Hx].
    destruct (Ascii.eqb a sep) eqn:E.
    + apply Ascii.eqb_eq in E. congruence.
    + now rewrite IH.
Qed.

Lemma parseTime_formatTime seconds :
  0 <= seconds -> parseTime (formatTime seconds) = Some seconds.
Proof.
  intros Hs. unfold formatTime, parseTime, padStart.
  assert (Hm : 0 <= seconds / 60) by (apply Z.div_pos; lia).
  assert (Hr : 0 <= Z.rem seconds 60) by (apply Z.rem_nonneg; lia).
  destruct (toString_nonneg _ Hm) as (dm & Em & Vm).
  destruct (toString_nonneg _ Hr) as (dr & Er & Vr).
  rewrite Em, Er.
  change (?x ++ ":" ++ ?y)%string with (x ++ String ":" y)%string.
  rewrite splitAt_digits;
    [|reflexivity|apply allDigits_zeros, allDigits_string_of_uint].
  rewrite !readNat_zeros, Vm, Vr.
  f_equal. rewrite Z.rem_mod_nonneg by lia.
  pose proof (Z.div_mod seconds 60). lia.
Qed.

Lemma padStart_two_digits (n : nat) :
  (n < 100)%nat ->
  String.length (padStart 2 "0" (toString (Z.of_nat n))) = 2%nat.
Proof.
  intros Hn.
  do 100 (destruct n as [|n]; [reflexivity|]). lia.
Qed.

Lemma string_length_app (x y : string) :
  String.length (x ++ y) = (String.length x + String.length y)%nat.
Proof. induction x as [|a x IH]; cbn; [reflexivity | now rewrite IH]. Qed.

(** X1: the clock display.  For a non-negative number of seconds the
    text reads back as that number, so two different times are never
    displayed alike; below 100 minutes it is exactly five characters,
    two digits on either side of the colon. *)
Theorem formatTime_faithful (a b : Z) (Ha : 0 <= a) (Hb : 0 <= b) :
  parseTime (formatTime a) = Some a
  /\ (formatTime a = formatTime b -> a = b)
  /\ (a < 6000 ->
      String.length (formatTime a) = 5%nat
      /\ String.get 2 (formatTime a) = Some ":"%char).
Proof.
  split; [now apply parseTime_formatTime | split].
  - intros E. pose proof (parseTime_formatTime a Ha) as H1.
    rewrite E, parseTime_formatTime in H1 by assumption. congruence.
  - intros Hlt. unfold formatTime.
    assert (Hm : String.length (padStart 2 "0" (toString (a / 60))) = 2%nat).
    { rewrite <- (Z2Nat.id (a / 60)) by (apply Z.div_pos; lia).
      apply padStart_two_digits.
      assert (a / 60 < 100) by (apply Z.div_lt_upper_bound; lia). lia. }
    assert (Hr : String.length (padStart 2 "0" (toString (Z.rem a 60))) = 2%nat).
    { rewrite <- (Z2Nat.id (Z.rem a 60)) by (apply Z.rem_nonneg; lia).
      apply padStart_two_digits.
      rewrite Z.rem_mod_nonneg by lia.
      pose proof (Z.mod_pos_bound a 60). lia. }
    split.
    + rewrite !string_length_app, Hm, Hr. reflexivity.
    + destruct (padStart 2 "0" (toString (a / 60))) as [|c1 [|c2 [|c3 r]]];
        try discriminate Hm. reflexivity.
Qed.

Lemma formatTime_faithful_witness :
  formatTime 754 = "12:34" /\ parseTime "12:34" = Some 754.
Proof.
  destruct (formatTime_faithful 754 0 ltac:(lia) ltac:(lia)) as (H & _).
  split; [reflexivity | exact H].
Defined.

(** ** What holds in every run *)

Lemma run_invariant (P : World -> Prop) p :
  (forall w e, P w -> P (step p w e)) ->
  forall es w, P w -> P (run p w es).
Proof.
  intros Hstep es. induction es as [|e es IH]; intros w Hw; cbn; [exact Hw|].
  apply IH, Hstep, Hw.
Qed.

Lemma handler_end_untouched p e cl w :
  e <> EndChat -> (forall r, e <> EndResponse r) ->
  endPending (handler p e cl w) = endPending w
  /\ isEndingChat (comp (handler p e cl w)) = isEndingChat (comp w)
  /\ endCalls (handler p e cl w) = endCalls w.
Proof.
  intros H1 H2. destruct e; try congruence;
    try (by_cases; repeat split; reflexivity).
Qed.

Lemma step_endCoherent p w e :
  endCoherent w /\ Forall wellFormed (endCalls w) ->
  endCoherent (step p w e) /\ Forall wellFormed (endCalls (step p w e)).
Proof.
  intros [Hc Hf]. unfold endCoherent in *.
  rewrite step_endPending, step_isEndingChat, step_endCalls.
  destruct e;
    try (match goal with
         | |- context [handler p ?e _ _] =>
             destruct (handler_end_untouched p e (comp w) w) as (E1 & E2 & E3);
             [discriminate | discriminate
             | rewrite E1, E2, E3; split; assumption]
         end).
  - (* EndChat *)
    cbn [handler]. unfold handleEndChat.
    destruct (isEndingChat (comp w)) eqn:He;
      [unfold skip; rewrite He; split; assumption|].
    destruct (Js.truthy (userId p)) eqn:Hu; cbn [negb];
      [|unfold skip; rewrite He; split; assumption].
    destruct Hc as [[Hp _]|(cl & _ & Habs)]; [|congruence].
    unfold andThen. destruct (simulationProgressId (comp w)) as [id|] eqn:Hid;
      [destruct (Js.truthy id) eqn:Ht|].
    + split.
      * right. exists (comp w). unfold postEnd, update, setTimerRef.
        destruct (timerRef w); cbn; rewrite Hp; split; reflexivity.
      * unfold postEnd, update, setTimerRef.
        destruct (timerRef w); cbn; apply Forall_app; (split; [assumption|]);
          (constructor; [split; assumption | constructor]).
    + split.
      * left. unfold update, setTimerRef. destruct (timerRef w); cbn; auto.
      * unfold update, setTimerRef. destruct (timerRef w); cbn; assumption.
    + split.
      * left. unfold update, setTimerRef. destruct (timerRef w); cbn; auto.
      * unfold update, setTimerRef. destruct (timerRef w); cbn; assumption.
  - (* EndResponse *)
    cbn [handler]. unfold handleEndResponse.
    destruct Hc as [[Hp Hg]|(cl & Hp & Hg)]; rewrite Hp.
    + split; [left; split|]; assumption.
    + split; [|destruct r as [[sc|] d|]; exact Hf].
      left. destruct r as [[sc|] d|]; split; reflexivity.
Qed.

(** X3: in every run of the component at most one end request is in
    flight, the guard [isEndingChat] is up exactly while one is, and
    every end request that was posted carries a non-empty user
    identifier and a non-empty progress identifier. *)
Theorem end_requests_in_every_run (p : Props) (es : list Event) :
  let w := run p initialWorld es in
  endCoherent w
  /\ (isEndingChat (comp w) = true <-> endPending w <> [])
  /\ Forall wellFormed (endCalls w).
Proof.
  cbv zeta.
  assert (H : endCoherent (run p initialWorld es)
              /\ Forall wellFormed (endCalls (run p initialWorld es))).
  { apply (run_invariant
             (fun w => endCoherent w /\ Forall wellFormed (endCalls w))).
    - intros w e. apply step_endCoherent.
    - split; [left; split; reflexivity | constructor]. }
  destruct H as [Hc Hf]. split; [exact Hc | split; [|exact Hf]].
  destruct Hc as [[Hp Hg]|(cl & Hp & Hg)]; rewrite Hp, Hg; split;
    congruence.
Qed.

Lemma step_elapsed_bounds p w e :
  0 <= elapsed w ->
  0 <= elapsed (step p w e) <= elapsed w + ticks [e].
Proof.
  intros Hw. rewrite step_elapsed.
  destruct e; try (rewrite handler_elapsed by discriminate; cbn; lia).
  - cbn [handler ticks]. unfold tick.
    destruct (timerRef w); [destruct (_ && _)|]; unfold elapsed in *; cbn; lia.
  - cbn. lia.
Qed.

Lemma ticks_cons e es : ticks (e :: es) = ticks [e] + ticks es.
Proof. destruct e; cbn; lia. Qed.

Lemma run_elapsed_bounds p es w :
  0 <= elapsed w ->
  0 <= elapsed (run p w es) <= elapsed w + ticks es.
Proof.
  revert w. induction es as [|e es IH]; intros w Hw; cbn [run fold_left].
  - cbn. lia.
  - pose proof (step_elapsed_bounds p w e Hw) as H1.
    specialize (IH (step p w e) ltac:(lia)).
    rewrite (ticks_cons e es). unfold run in IH. lia.
Qed.

(** X4: in every run the elapsed seconds are at least 0 and at most the
    number of clock ticks received, so the clock display reads back as
    the elapsed seconds. *)
Theorem elapsed_in_every_run (p : Props) (es : list Event) :
  let w := run p initialWorld es in
  0 <= elapsed w <= ticks es
  /\ parseTime (formatTime (elapsed w)) = Some (elapsed w).
Proof.
  cbv zeta.
  pose proof (run_elapsed_bounds p es initialWorld ltac:(cbn; lia)) as H.
  change (elapsed initialWorld) with 0 in H.
  split; [lia | apply parseTime_formatTime; lia].
Qed.

(** ** Entering an item resets the transient state *)

(** X5: whenever a step changes the position, the state of the widgets
    is reset: the dropdown is closed and has no value, the checkbox is
    unchecked, the text field is empty, and the coaching tip is shown
    exactly when the item now current is a coaching tip. *)
Theorem entering_resets (p : Props) (w : World) (e : Event)
  (Hmove : position (step p w e) <> position w) :
  let w1 := step p w e in
  dropdownOpen (comp w1) = false
  /\ dropdownValue (comp w1) = ""
  /\ checkboxChecked (comp w1) = false
  /\ textInputValue (comp w1) = ""
  /\ showCoachingTip (comp w1)
     = match currentItem (comp w1) with
       | Some it => isCoachingTip it
       | None => false
       end.
Proof.
  cbv zeta. rewrite step_currentItem.
  rewrite step_position in Hmove.
  rewrite step_commit, commit_split.
  set (w' := handler p e (comp w) w) in *.
  set (nd := storesData e w). clearbody nd.
  assert (Hr : resetDeps (comp w) (comp w') = true)
    by (now apply resetDeps_position).
  assert (Hp : forall A (f : World -> A) v,
             (forall cur, preserves f (processEffect cur)) ->
             f v = f ((if processDeps nd (comp w) (comp w')
                       then processEffect (comp w') else skip) v)).
  { intros A f v H. destruct (processDeps _ _ _); [now rewrite H | reflexivity]. }
  assert (Hs : exists v, settled (comp w) w' = resetEffect (comp w') v).
  { unfold settled, andThen. rewrite Hr. eexists. reflexivity. }
  destruct Hs as (v & Hs). rewrite Hs.
  repeat split.
  - rewrite <- (Hp _ (fun x => dropdownOpen (comp x)))
      by (intros cur; unfold processEffect, processItem; preserve).
    unfold resetEffect. destruct (currentItem (comp w')) as [it|];
      [destruct (isCoachingTip it)|]; reflexivity.
  - rewrite <- (Hp _ (fun x => dropdownValue (comp x)))
      by (intros cur; unfold processEffect, processItem; preserve).
    unfold resetEffect. destruct (currentItem (comp w')) as [it|];
      [destruct (isCoachingTip it)|]; reflexivity.
  - rewrite <- (Hp _ (fun x => checkboxChecked (comp x)))
      by (intros cur; unfold processEffect, processItem; preserve).
    unfold resetEffect. destruct (currentItem (comp w')) as [it|];
      [destruct (isCoachingTip it)|]; reflexivity.
  - rewrite <- (Hp _ (fun x => textInputValue (comp x)))
      by (intros cur; unfold processEffect, processItem; preserve).
    unfold resetEffect. destruct (currentItem (comp w')) as [it|];
      [destruct (isCoachingTip it)|]; reflexivity.
  - rewrite <- (Hp _ (fun x => showCoachingTip (comp x)))
      by (intros cur; unfold processEffect, processItem; preserve).
    unfold resetEffect. destruct (currentItem (comp w')) as [it|];
      [destruct (isCoachingTip it)|]; reflexivity.
Qed.

Lemma entering_resets_witness :
  let item := mkItem "hotspot" "d1" (Some "dropdown") (Some Demo.box)
                (Some (mkSettings None (Some true))) None None (Some ["A"; "B"]) in
  let sim := mkSimulationData "sim-5"
               [mkSlide "img-1" (Some [item; Demo.hotspot "h2" "button" None])] in
  let w := run Demo.props initialWorld
             [Start; StartResponse (StartOk (Some sim) "progress-5"); ImageLoad;
              HotspotClick; DropdownSelect "A"] in
  dropdownValue (comp w) = "A"
  /\ dropdownValue (comp (step Demo.props w (TimeoutFires 0))) = "".
Proof.
  intros item sim w.
  assert (Hmove : position (step Demo.props w (TimeoutFires 0)) <> position w)
    by (vm_compute; discriminate).
  destruct (entering_resets Demo.props w (TimeoutFires 0) Hmove) as (_ & H & _).
  split; [vm_compute; reflexivity | exact H].
Defined.

(** ** Pausing *)

Lemma nth_error_snoc {A : Type} (l : list A) (x : A) :
  nth_error (l ++ [x]) (List.length l) = Some x.
Proof. induction l as [|a l IH]; cbn; [reflexivity | exact IH]. Qed.

Lemma remove_nth_snoc {A : Type} (l : list A) (x : A) :
  remove_nth (List.length l) (l ++ [x]) = l.
Proof. induction l as [|a l IH]; cbn; [reflexivity | now rewrite IH]. Qed.

Lemma fireTimeout_position k t w :
  nth_error (timeouts w) k = Some t ->
  advancing (callback t) = true ->
  position w = (currentSlideIndex (closure t), currentSequenceIndex (closure t)) ->
  position (fireTimeout k w) = nextPosition (closure t).
Proof.
  intros Hk Ha Hp. unfold fireTimeout. rewrite Hk. unfold andThen.
  destruct t as [cb ms cl]. cbn in *.
  rewrite runCallback_position by assumption.
  now apply moveToNextItem_next.
Qed.

(** X6: pausing.  While paused a click on a hotspot changes nothing and
    no render processes the current item; but pausing cancels nothing:
    the pending timeouts are all kept, and one that advances, fired
    while its position is still current, moves to the next position
    whether the session is paused or not. *)
Theorem pause_keeps_timeouts (p : Props) (w : World) :
  (paused w = true -> step p w HotspotClick = w)
  /\ (forall e, paused (handler p e (comp w) w) = true ->
                timeouts (step p w e) = timeouts (handler p e (comp w) w))
  /\ (paused w = false ->
      paused (step p w TogglePause) = true
      /\ timeouts (step p w TogglePause) = timeouts w)
  /\ (forall k t,
      nth_error (timeouts w) k = Some t ->
      advancing (callback t) = true ->
      position w = (currentSlideIndex (closure t), currentSequenceIndex (closure t)) ->
      position (step p w (TimeoutFires k)) = nextPosition (closure t)).
Proof.
  assert (Hb : forall e, paused (handler p e (comp w) w) = true ->
                         timeouts (step p w e) = timeouts (handler p e (comp w) w)).
  { intros e He. apply step_blocked_timeouts. unfold blocked.
    unfold paused in He. now rewrite He, orb_true_r. }
  split; [|split; [exact Hb | split]].
  - intros Hp. apply step_unchanged; [|reflexivity].
    cbn [handler]. unfold handleHotspotClick, paused in *.
    destruct (currentItem (comp w)); [|reflexivity].
    now rewrite Hp, !orb_true_r.
  - intros Hp.
    assert (Hh : handler p TogglePause (comp w) w = update (setIsPaused true) w).
    { cbn [handler]. unfold togglePause. unfold paused in Hp. now rewrite Hp. }
    split.
    + rewrite step_pausedH, Hh. reflexivity.
    + rewrite Hb; rewrite Hh; reflexivity.
  - intros k t Hk Ha Hp. rewrite step_position. cbn [handler].
    now apply fireTimeout_position.
Qed.

Lemma pause_keeps_timeouts_witness :
  let w := run Demo.props Chat.greeted [TogglePause] in
  paused w = true
  /\ position w = (0, 0)
  /\ position (step Demo.props w (TimeoutFires 0)) = (0, 1).
Proof.
  cbv zeta.
  destruct (pause_keeps_timeouts Demo.props
              (run Demo.props Chat.greeted [TogglePause])) as (_ & _ & _ & H).
  split; [reflexivity | split; [reflexivity|]].
  rewrite (H 0%nat (mkTimeout CustomerAdvance 800
             (setImageLoaded true (comp (run Demo.props initialWorld
                [Start; StartResponse (StartOk (Some Chat.script) "progress-7")])))));
    vm_compute; reflexivity.
Defined.

(** ** The suggested response *)

(** X7: the "Use Suggested Response" button copies the suggestion into
    the input and schedules a submission 100 ms later, but that
    submission reads the input as it was when the button was pressed:
    if it was blank nothing is submitted and the engine goes on
    waiting; if it held text, that text is submitted, not the
    suggestion. *)
Theorem suggested_response_submits_old_input (p : Props) (w : World)
  (Hw : waitingForUserInput (comp w) = true) :
  let w1 := step p w UseSuggested in
  let w2 := step p w1 (TimeoutFires (List.length (timeouts w))) in
  userInput (comp w1) = expectedTraineeResponse (comp w)
  /\ timeouts w1 = timeouts w ++ [mkTimeout SuggestedSubmit 100 (comp w)]
  /\ (Js.blank (userInput (comp w)) = true ->
      waitingForUserInput (comp w2) = true
      /\ currentMessage (comp w2) = currentMessage (comp w)
      /\ timeouts w2 = timeouts w
      /\ position w2 = position w)
  /\ (Js.blank (userInput (comp w)) = false ->
      currentMessage (comp w2) = Some (mkMessage trainee (userInput (comp w)))
      /\ waitingForUserInput (comp w2) = false
      /\ timeouts w2 = timeouts w ++ [mkTimeout SubmitAdvance 500 (comp w)]).
Proof.
  cbv zeta.
  assert (H1 : step p w UseSuggested =
               (update (setUserInput (expectedTraineeResponse (comp w))) ;;
                setTimeout SuggestedSubmit 100 (comp w)) w).
  { rewrite step_idle; try reflexivity; deps_unchanged. }
  rewrite H1.
  set (w1 := (update (setUserInput (expectedTraineeResponse (comp w))) ;;
              setTimeout SuggestedSubmit 100 (comp w)) w).
  assert (Ht : timeouts w1 = timeouts w ++ [mkTimeout SuggestedSubmit 100 (comp w)])
    by reflexivity.
  assert (Hf : handler p (TimeoutFires (List.length (timeouts w))) (comp w1) w1
               = (setTimeouts (timeouts w) ;; handleSubmitMessage (comp w)) w1).
  { cbn [handler]. unfold fireTimeout.
    rewrite Ht, nth_error_snoc, remove_nth_snoc. reflexivity. }
  split; [reflexivity | split; [exact Ht | split]].
  - intros Hb.
    assert (Hs : handleSubmitMessage (comp w) = skip)
      by (unfold handleSubmitMessage; now rewrite trim_truthy, Hb).
    rewrite Hs in Hf.
    rewrite step_idle; rewrite ?Hf; try reflexivity; try deps_unchanged.
    repeat split. exact Hw.
  - intros Hb.
    assert (Hs : handleSubmitMessage (comp w) =
                 (update (setCurrentMessage
                            (Some (mkMessage trainee (userInput (comp w))))) ;;
                  update (setUserInput "") ;;
                  update (setWaitingForUserInput false) ;;
                  update (setExpectedTraineeResponse "") ;;
                  setTimeout SubmitAdvance 500 (comp w)))
      by (unfold handleSubmitMessage; now rewrite trim_truthy, Hb, Hw).
    rewrite Hs in Hf.
    rewrite step_idle; rewrite ?Hf; try reflexivity; try deps_unchanged.
    repeat split.
Qed.

Lemma suggested_response_submits_old_input_witness :
  let w2 := step Demo.props (step Demo.props Chat.asked UseSuggested)
              (TimeoutFires (List.length (timeouts Chat.asked))) in
  userInput (comp w2) = "Hello, how can I help?"
  /\ waitingForUserInput (comp w2) = true
  /\ position w2 = (0, 1).
Proof.
  cbv zeta.
  destruct (suggested_response_submits_old_input Demo.props Chat.asked eq_refl)
    as (_ & _ & H & _).
  destruct (H eq_refl) as (H1 & _ & _ & H4).
  split; [vm_compute; reflexivity | split; [exact H1 | rewrite H4; reflexivity]].
Defined.

(** ** Starting *)

Lemma step_startCalls p w e :
  startCalls (step p w e) = startCalls (handler p e (comp w) w).
Proof.
  apply (render_preserves startCalls); intros cur;
    unfold timerEffect, resetEffect, processEffect, processItem; preserve.
Qed.


Lemma step_duration p w e :
  duration (comp (step p w e)) = duration (comp (handler p e (comp w) w)).
Proof.
  apply (render_preserves (fun x => duration (comp x))); intros cur;
    unfold timerEffect, resetEffect, processEffect, processItem; preserve.
Qed.

(** X8: without a user identifier neither the start nor the end of a
    session does anything at all: no request, no change of state. *)
Theorem no_user_no_session (p : Props) (w : World)
  (Hu : Js.truthy (userId p) = false) :
  step p w Start = w /\ step p w EndChat = w.
Proof.
  split; apply step_unchanged; try reflexivity; cbn [handler].
  - unfold handleStart. now rewrite Hu.
  - unfold handleEndChat. rewrite Hu. now destruct (isEndingChat (comp w)).
Qed.

Lemma no_user_no_session_witness :
  step (mkProps "" "sim-4" true) Demo.playingForm EndChat = Demo.playingForm.
Proof.
  exact (proj2 (no_user_no_session (mkProps "" "sim-4" true)
                  Demo.playingForm eq_refl)).
Defined.




(** ** The text field *)

(** X10: in a text field the Enter key moves to the next position
    whatever has been typed, and whether or not the session is paused,
    started or processing an item; any other key changes nothing. *)
Theorem text_field_enter (p : Props) (w : World) :
  position (step p w (TextInputKeyDown "Enter")) = nextPosition (comp w)
  /\ (forall v, position (step p (step p w (TextInputChange v))
                               (TextInputKeyDown "Enter"))
                = nextPosition (comp w))
  /\ (forall key, key <> "Enter" -> step p w (TextInputKeyDown key) = w).
Proof.
  split; [|split].
  - rewrite step_position. cbn [handler]. unfold handleTextInputSubmit. cbn.
    now apply moveToNextItem_next.
  - intros v.
    assert (Hv : step p w (TextInputChange v) = update (setTextInputValue v) w)
      by (rewrite step_idle; try reflexivity; deps_unchanged).
    rewrite Hv, step_position. cbn [handler]. unfold handleTextInputSubmit.
    cbn [String.eqb Ascii.eqb Bool.eqb].
    rewrite moveToNextItem_next by reflexivity. reflexivity.
  - intros key Hk. apply step_unchanged; [|reflexivity].
    cbn [handler]. unfold handleTextInputSubmit.
    apply String.eqb_neq in Hk. now rewrite Hk.
Qed.

(** ** Staying in the script *)

Lemma index_Some {A : Type} (l : list A) (i : Z) :
  0 <= i < Js.length l -> exists x, Js.index l i = Some x /\ In x l.
Proof.
  intros [H0 H1]. unfold Js.index, Js.length in *.
  destruct (i <? 0) eqn:E; [apply Z.ltb_lt in E; lia|].
  destruct (nth_error l (Z.to_nat i)) as [x|] eqn:En.
  - exists x. split; [reflexivity | eapply nth_error_In, En].
  - apply nth_error_None in En. lia.
Qed.

Lemma index_bounds {A : Type} (l : list A) (i : Z) (x : A) :
  Js.index l i = Some x -> 0 <= i < Js.length l.
Proof.
  unfold Js.index, Js.length.
  destruct (i <? 0) eqn:E; [discriminate|]. apply Z.ltb_ge in E.
  intros H. assert (Hn : nth_error l (Z.to_nat i) <> None) by congruence.
  apply nth_error_Some in Hn. lia.
Qed.

(** X11: advancing never leaves the script.  When every slide has at
    least one item and there is a current item, [moveToNextItem] called
    from the current render leads to a position that has an item
    again; at the last item of the last slide it keeps the position (no
    wrap-around) and only takes the highlight off. *)
Theorem advance_stays_in_script (w : World)
  (Hs : scripted (comp w))
  (Hit : currentItem (comp w) <> None) :
  currentItem (comp (moveToNextItem (comp w) w)) <> None
  /\ (currentSequenceIndex (comp w) = Js.length (currentSequence (comp w)) - 1 ->
      currentSlideIndex (comp w) = Js.length (slidesOf (comp w)) - 1 ->
      moveToNextItem (comp w) w = update (setHighlightHotspot false) w).
Proof.
  split.
  - unfold moveToNextItem.
    destruct (currentItem (comp w)) as [it|] eqn:Ei; [clear Hit|congruence].
    pose proof (index_bounds _ _ _ Ei) as Hb.
    destruct (currentSequenceIndex (comp w) <? _) eqn:E1;
      [|destruct (currentSlideIndex (comp w) <? _) eqn:E2].
    + apply Z.ltb_lt in E1.
      destruct (index_Some (currentSequence (comp w))
                  (currentSequenceIndex (comp w) + 1) ltac:(lia)) as (x & Hx & _).
      unfold update. cbn. unfold currentItem. cbn.
      change (Js.index (currentSequence (comp w))
                (currentSequenceIndex (comp w) + 1) <> None).
      congruence.
    + apply Z.ltb_lt in E2.
      assert (H0 : 0 <= currentSlideIndex (comp w)).
      { unfold currentItem, currentSequence, currentSlide in Ei.
        destruct (Js.index (slidesOf (comp w)) (currentSlideIndex (comp w)))
          as [sl|] eqn:Esl.
        - apply index_bounds in Esl. lia.
        - unfold Js.index in Ei. destruct (_ <? 0); [discriminate|].
          destruct (Z.to_nat _); discriminate. }
      destruct (index_Some (slidesOf (comp w))
                  (currentSlideIndex (comp w) + 1) ltac:(lia)) as (sl & Hsl & Hin).
      destruct (Hs sl Hin) as (x & q & Hq).
      unfold andThen, update. cbn. unfold currentItem, currentSequence, currentSlide.
      cbn.
      change (match
                 match Js.index (slidesOf (comp w)) (currentSlideIndex (comp w) + 1) with
                 | Some sl => match sequence sl with Some q => q | None => [] end
                 | None => []
                 end
               with
               | l => Js.index l 0
               end <> None).
      rewrite Hsl, Hq. discriminate.
    + unfold update. cbn.
      change (currentItem (comp w) <> None). congruence.
  - intros H1 H2. unfold moveToNextItem.
    rewrite H1, H2, !Z.ltb_irrefl. reflexivity.
Qed.

Lemma advance_stays_in_script_witness :
  position (moveToNextItem (comp Chat.asked) Chat.asked) = (0, 1)
  /\ currentItem (comp (moveToNextItem (comp Chat.asked) Chat.asked)) <> None.
Proof.
  assert (Hs : scripted (comp Chat.asked)).
  { intros sl Hin. vm_compute in Hin. destruct Hin as [<-|[]].
    eexists. eexists. reflexivity. }
  assert (Hit : currentItem (comp Chat.asked) <> None)
    by (vm_compute; discriminate).
  destruct (advance_stays_in_script Chat.asked Hs Hit) as [H _].
  split; [vm_compute; reflexivity | exact H].
Defined.

(** ** The response of the end request *)

(** X12: the outcome of the end request.  A response with scores stores
    them, shows the completion screen and records the duration sent by
    the server, or, when that is 0, the elapsed seconds at the moment
    the end was requested; a response without scores stores nothing and
    shows nothing; both release the guard. *)
Theorem end_response_outcomes (p : Props) (w : World) (cl : Comp)
  (rest : list Comp) (Hq : endPending w = cl :: rest) :
  (forall sc dur,
      let w1 := step p w (EndResponse (EndOk (Some sc) dur)) in
      scores (comp w1) = Some sc
      /\ duration (comp w1) = (if dur =? 0 then elapsedTime cl else dur)
      /\ showCompletionScreen (comp w1) = true
      /\ isEndingChat (comp w1) = false
      /\ endPending w1 = rest)
  /\ (forall dur,
      let w1 := step p w (EndResponse (EndOk None dur)) in
      scores (comp w1) = scores (comp w)
      /\ duration (comp w1) = duration (comp w)
      /\ showCompletionScreen (comp w1) = showCompletionScreen (comp w)
      /\ isEndingChat (comp w1) = false
      /\ endPending w1 = rest).
Proof.
  split; [intros sc dur | intros dur]; cbv zeta;
    rewrite step_scores, step_duration, step_showCompletionScreen,
      step_isEndingChat, step_endPending;
    cbn [handler]; unfold handleEndResponse; rewrite Hq;
    repeat split.
Qed.

Lemma end_response_outcomes_witness :
  let w := step Demo.props (run Demo.props Demo.playingForm [Tick; Tick]) EndChat in
  let sc := mkScores 90 80 70 60 50 40 in
  duration (comp (step Demo.props w (EndResponse (EndOk (Some sc) 0)))) = 2
  /\ duration (comp (step Demo.props w (EndResponse (EndOk (Some sc) 42)))) = 42.
Proof.
  intros w sc.
  assert (Hq : endPending w = [comp (run Demo.props Demo.playingForm [Tick; Tick])])
    by (vm_compute; reflexivity).
  destruct (end_response_outcomes Demo.props w _ [] Hq) as [H _].
  destruct (H sc 0) as (_ & H0 & _). destruct (H sc 42) as (_ & H42 & _).
  split; [rewrite H0 | rewrite H42]; vm_compute; reflexivity.
Defined.

(** ** Restarting *)

(** X13: the restart puts the position at (0, 0), the elapsed seconds at
    0, forgets the scores, the message and the completion screen, and
    leaves the session not started with the image to be loaded again;
    it keeps the simulation data, the progress identifier and the pause
    flag, cancels no pending timeout and schedules none, and makes no
    request. *)
Theorem restart_state (p : Props) (w : World) :
  let w1 := step p w RestartSim in
  position w1 = (0, 0)
  /\ elapsed w1 = 0
  /\ scores (comp w1) = None
  /\ isPassed (scores (comp w1)) = false
  /\ showCompletionScreen (comp w1) = false
  /\ started w1 = false
  /\ loaded w1 = false
  /\ currentMessage (comp w1) = None
  /\ data w1 = data w
  /\ simulationProgressId (comp w1) = simulationProgressId (comp w)
  /\ paused w1 = paused w
  /\ timeouts w1 = timeouts w
  /\ startCalls w1 = startCalls w
  /\ endCalls w1 = endCalls w.
Proof.
  cbv zeta.
  assert (Hb : blocked (comp (handler p RestartSim (comp w) w)) = true)
    by (unfold blocked; cbn; now rewrite !orb_true_r).
  assert (Hl : loaded (step p w RestartSim) = false).
  { apply (render_preserves loaded); intros cur;
      unfold timerEffect, resetEffect, processEffect, processItem; preserve. }
  rewrite step_position, step_elapsed, step_scores, step_showCompletionScreen,
    step_started, step_data, step_simulationProgressId, step_pausedH,
    step_startCalls, step_endCalls, (step_currentMessage_blocked _ _ _ Hb),
    (step_blocked_timeouts _ _ _ Hb), Hl.
  repeat split.
Qed.

(** ** Changing slide *)

Lemma handler_slide_gate p e cl w :
  slideIndex (handler p e cl w) <> slideIndex w ->
  loaded (handler p e cl w) = false.
Proof.
  unfold slideIndex, loaded.
  destruct e;
    try match goal with
        | |- context [RestartSim] => intros _; reflexivity
        end;
    by_cases; unfold update, setTimeout, setTimeouts, setTimerRef,
    postEnd, postStart, setEndPending, setStartPending, skip; cbn;
    intros H; first [reflexivity | congruence | lia].
Qed.

(** X14: whenever a step changes the slide, the image of the new slide
    counts as not loaded, and the render of that step processes
    nothing: it schedules no timeout. *)
Theorem slide_change_waits_for_image (p : Props) (w : World) (e : Event)
  (Hs : slideIndex (step p w e) <> slideIndex w) :
  loaded (step p w e) = false
  /\ timeouts (step p w e) = timeouts (handler p e (comp w) w).
Proof.
  assert (Hh : slideIndex (handler p e (comp w) w) <> slideIndex w).
  { intros E. apply Hs. unfold step. now rewrite render_slideIndex. }
  pose proof (handler_slide_gate p e (comp w) w Hh) as Hl.
  split.
  - unfold step. rewrite <- Hl.
    apply (render_preserves loaded); intros cur;
      unfold timerEffect, resetEffect, processEffect, processItem; preserve.
  - apply step_blocked_timeouts. unfold blocked. unfold loaded in Hl.
    rewrite Hl. cbn. now rewrite orb_true_r.
Qed.

(** ** No current item *)

(** X15: when the position holds no item (no data yet, or an index past
    the end) a click on a hotspot changes nothing, a selection
    schedules nothing, and a render processes nothing. *)
Theorem without_current_item (p : Props) (w : World)
  (Hn : currentItem (comp w) = None) :
  step p w HotspotClick = w
  /\ (forall option,
      timeouts (step p w (DropdownSelect option)) = timeouts w
      /\ position (step p w (DropdownSelect option)) = position w)
  /\ (forall newData prev,
      timeouts (render newData prev w) = timeouts w
      /\ processing (render newData prev w) = processing w).
Proof.
  split; [|split].
  - apply step_unchanged; [|reflexivity].
    cbn [handler]. unfold handleHotspotClick. now rewrite Hn.
  - intros option.
    assert (Hh : handler p (DropdownSelect option) (comp w) w =
                 (update (setDropdownValue option) ;;
                  update (setDropdownOpen false) ;; skip) w).
    { cbn [handler]. unfold handleDropdownSelect, advanceOnSelectOf.
      now rewrite Hn. }
    rewrite step_idle; rewrite ?Hh; try reflexivity; try deps_unchanged.
    split; reflexivity.
  - intros newData prev. rewrite render_commit, commit_split.
    assert (Hp : processEffect (comp w) = skip)
      by (unfold processEffect; now rewrite Hn).
    rewrite Hp. destruct (processDeps _ _ _); unfold skip; split;
      try apply settled_timeouts.
    all: unfold settled, andThen;
      assert (Hr : forall cur, preserves processing (resetEffect cur))
        by (intros cur; unfold resetEffect; preserve);
      destruct (resetDeps _ _); [rewrite Hr|unfold skip at 1];
      destruct (timerDeps _ _); reflexivity.
Qed.

Lemma slide_change_waits_for_image_witness :
  let sim := mkSimulationData "sim-6"
               [mkSlide "img-1" (Some [Demo.hotspot "h1" "button" None]);
                mkSlide "img-2" (Some [Demo.message "m1" "Customer" "Hi"])] in
  let w := run Demo.props initialWorld
             [Start; StartResponse (StartOk (Some sim) "progress-6"); ImageLoad] in
  position (step Demo.props w HotspotClick) = (1, 0)
  /\ loaded (step Demo.props w HotspotClick) = false
  /\ timeouts (step Demo.props w HotspotClick) = [].
Proof.
  intros sim w.
  assert (Hs : slideIndex (step Demo.props w HotspotClick) <> slideIndex w)
    by (vm_compute; discriminate).
  destruct (slide_change_waits_for_image Demo.props w HotspotClick Hs) as [H1 H2].
  split; [vm_compute; reflexivity | split; [exact H1|]].
  rewrite H2. vm_compute. reflexivity.
Defined.

Lemma without_current_item_witness :
  let sim := mkSimulationData "sim-3"
               [mkSlide "img-1"
                  (Some [Demo.hotspot "h1" "button" None;
                         Demo.hotspot "h2" "checkbox" None;
                         Demo.hotspot "h3" "button" None])] in
  let w := run Demo.props initialWorld
             [Start; StartResponse (StartOk (Some sim) "progress-3"); ImageLoad;
              HotspotClick; HotspotClick; HotspotClick;
              TimeoutFires 0; TimeoutFires 0] in
  position w = (0, 3) /\ step Demo.props w HotspotClick = w.
Proof.
  intros sim w.
  assert (Hn : currentItem (comp w) = None) by (vm_compute; reflexivity).
  destruct (without_current_item Demo.props w Hn) as [H _].
  split; [vm_compute; reflexivity | exact H].
Defined.
